(** * The data-ingestion notebooks of mlrun/tutorials

    Two notebooks are embedded: [data-ingestion-and-preparation/file-access.ipynb]
    and [data-ingestion-and-preparation/README.ipynb].  Their code cells are
    straight-line Python that binds a few names and calls pandas, the Frames
    client, PySpark, Python's [os] module and shell commands.

    Every code cell becomes a function from the kernel namespace to a
    computation in a state-and-exception monad over a [world]: the
    platform's data store, the Spark session, and three transcripts (the
    library calls made, the data accesses requested, the outputs shown).
    The operations of pandas, Frames, Spark and the shell are given a
    reference semantics over that world, so that the cells can be run. *)

From Stdlib Require Import Ascii String ZArith.
From stdpp Require Import gmap strings list fin_maps pretty.

(** ** Python's [os.path.join] (posixpath) and path strings *)
Module Py.

Definition sep : ascii := "/"%char.

Definition startswith_sep (s : string) : bool :=
  match s with
  | String c _ => Ascii.eqb c sep
  | EmptyString => false
  end.

Fixpoint endswith_sep (s : string) : bool :=
  match s with
  | EmptyString => false
  | String c EmptyString => Ascii.eqb c sep
  | String _ s' => endswith_sep s'
  end.

(** One round of the loop of [posixpath.join]: an absolute component
    restarts the path, an empty path or one ending in a separator is
    extended as it is, otherwise a separator is inserted. *)
Definition join_step (path b : string) : string :=
  if startswith_sep b then b
  else if String.eqb path EmptyString || endswith_sep path then path +:+ b
  else path +:+ "/" +:+ b.

Definition posix_join (a : string) (p : list string) : string :=
  foldl join_step a p.

(** The separator-delimited fields of a string, left to right; [cur] is the
    field being read. *)
Fixpoint fields (d : ascii) (cur s : string) : list string :=
  match s with
  | EmptyString => [cur]
  | String c s' =>
      if Ascii.eqb c d then cur :: fields d EmptyString s'
      else fields d (cur +:+ String c EmptyString) s'
  end.

(** Path components: the non-empty fields (repeated and trailing
    separators do not count). *)
Definition components (s : string) : list string :=
  filter (λ c : string, c ≠ EmptyString) (fields sep EmptyString s).

Fixpoint strip_prefix (pre s : string) : option string :=
  match pre with
  | EmptyString => Some s
  | String a pre' =>
      match s with
      | String b s' => if Ascii.eqb a b then strip_prefix pre' s' else None
      | EmptyString => None
      end
  end.


Fixpoint no_sep (s : string) : bool :=
  match s with
  | EmptyString => true
  | String c s' => negb (Ascii.eqb c sep) && no_sep s'
  end.

Definition digit (c : ascii) : option Z :=
  let n := (Z.of_N (N_of_ascii c) - 48)%Z in
  if (0 <=? n)%Z && (n <=? 9)%Z then Some n else None.

Fixpoint parse_digits (acc : Z) (s : string) : option Z :=
  match s with
  | EmptyString => Some acc
  | String c s' => d ← digit c; parse_digits (10 * acc + d)%Z s'
  end.

(** A decimal integer, with an optional minus sign. *)
Definition parse_int (s : string) : option Z :=
  match s with
  | EmptyString => None
  | String c s' =>
      if Ascii.eqb c "-"%char
      then (if String.eqb s' EmptyString then None else Z.opp <$> parse_digits 0 s')
      else parse_digits 0 s
  end.

Definition elem (x : string) (l : list string) : bool := existsb (String.eqb x) l.

(** A name usable as one path component: not empty, no separator. *)
Definition is_name (s : string) : bool :=
  negb (String.eqb s EmptyString) && no_sep s.

End Py.

(** ** Spark SQL: casting a string to an integer, comparing names

    A string column compared with an integer literal is cast to [int].  The
    cast trims blanks at both ends, accepts one sign, reads digits up to an
    optional decimal point, checks that only digits follow the point and
    drops them, and gives no value ([NULL]) when the text has another form or
    the number does not fit in 32 bits.  Column names are compared ignoring
    case ([spark.sql.caseSensitive] is false by default). *)
Module Sql.

Definition blank (c : ascii) : bool := (N_of_ascii c <=? 32)%N.

Fixpoint ltrim (s : string) : string :=
  match s with
  | String c s' => if blank c then ltrim s' else s
  | EmptyString => EmptyString
  end.

Fixpoint rtrim (s : string) : string :=
  match s with
  | EmptyString => EmptyString
  | String c s' =>
      match rtrim s' with
      | EmptyString => if blank c then EmptyString else String c EmptyString
      | t => String c t
      end
  end.

Definition trim (s : string) : string := rtrim (ltrim s).

(** The text before the first decimal point, and the text after it. *)
Fixpoint split_point (s : string) : string * option string :=
  match s with
  | EmptyString => (EmptyString, None)
  | String c s' =>
      if Ascii.eqb c "."%char then (EmptyString, Some s')
      else let '(a, b) := split_point s' in (String c a, b)
  end.

Definition all_digits (s : string) : bool :=
  match Py.parse_digits 0 s with Some _ => true | None => false end.

Definition int_min : Z := -2147483648.
Definition int_max : Z := 2147483647.

Definition in_int (v : Z) : option Z :=
  if (int_min <=? v)%Z && (v <=? int_max)%Z then Some v else None.

(** The magnitude of an unsigned numeral: the digits before the point. *)
Definition magnitude (s : string) : option Z :=
  let '(a, b) := split_point s in
  v ← Py.parse_digits 0 a;
  if all_digits (default EmptyString b) then Some v else None.

Definition cast_int (s : string) : option Z :=
  match trim s with
  | EmptyString => None
  | String c s' =>
      if Ascii.eqb c "-"%char then
        if String.eqb s' EmptyString then None
        else v ← magnitude s'; in_int (- v)
      else if Ascii.eqb c "+"%char then
        if String.eqb s' EmptyString then None
        else magnitude s' ≫= in_int
      else magnitude (String c s') ≫= in_int
  end.

Definition lower (c : ascii) : ascii :=
  let n := N_of_ascii c in
  if (65 <=? n)%N && (n <=? 90)%N then ascii_of_N (n + 32) else c.

Fixpoint lowercase (s : string) : string :=
  match s with
  | EmptyString => EmptyString
  | String c s' => String (lower c) (lowercase s')
  end.

Definition same_name (a b : string) : bool := String.eqb (lowercase a) (lowercase b).

End Sql.

(** ** Data: CSV documents, rows, the objects of the data store *)

(** A CSV document: its lines, each a list of fields.  Whether the first
    line is a header is decided by whoever reads it. *)
Definition csv := list (list string).

(** A row of a DataFrame or an item of a NoSQL table: column name and
    cell text, in column order. *)
Definition row := list (string * string).

Definition row_get (col : string) (r : row) : option string :=
  (λ hit, hit.2.2) <$> list_find (λ kv, kv.1 = col) r.

Definition row_values (r : row) : list string := r.*2.

(** Rows of a document read with a header line. *)
Definition csv_rows (doc : csv) : list string * list row :=
  match doc with
  | [] => ([], [])
  | hdr :: body => (hdr, (λ fs, zip hdr fs) <$> body)
  end.

(** Rows of a document read without a header: Spark names the columns
    [_c0], [_c1], ... *)
Definition positional (fs : list string) : row :=
  imap (λ i f, ("_c" +:+ pretty i, f)) fs.

Definition path := list string.

(** What the store holds at a path.  A NoSQL table records its
    primary-key attribute and its schema; its items are keyed by the value
    of that attribute. *)
Inductive obj :=
| File (doc : csv)
| Dir
| Table (key : string) (schema : list string) (items : gmap string row).

Definition is_dirlike (o : obj) : bool :=
  match o with File _ => false | _ => true end.

(** The environment of a run: the running user; what the network returns
    for a URL ([None]: the transfer fails), and for a transfer that fails the
    exit status of curl and what it had written by then; the exit status of
    the shell that cannot open the target of a redirect (1 in bash, 2 in
    dash); how the platform splits the rows of a scan into partitions; the
    identifier Spark gives a write job, which is part of the names of the
    files the job writes; and the lines of a document as pandas holds them
    once it has inferred the type of each column, every value in the text
    pandas gives it (63 read into a float column is 63.0). *)
Class Env := {
  user : string;
  remote : string → option csv;
  scan_split : list row → list (list row);
  curl_failure : string → positive * csv;
  redirect_status : positive;
  job_id : string;
  pd_values : csv → list (list string);
}.

(** ** Transcripts *)

Inductive api := Pandas | Spark | Frames | Presto | Dask | CuDF | PyOs | PyImport | Shell.

Inductive arg :=
| AStr (s : string)
| AInt (n : Z)
| ARef (x : string)            (* an object held in a variable *)
| AKw (k : string) (a : arg).   (* keyword argument *)

Record call := Call { c_api : api; c_name : string; c_args : list arg }.

(** Through which interface a data access is made. *)
Inductive iface :=
| ViaShell (cmd : string)
| ViaPandas
| ViaFrames (container backend : string)
| ViaSpark (format : string).

Inductive action := Reads | Writes | Lists | MakesDir | Fetches.

Record access := Access { a_via : iface; a_act : action; a_target : string }.

Inductive output :=
| Listing (entries : list (string * bool))   (* name, shown as a directory *)
| Frame (rows : list row)
| Message (text : string).

(** ** The world and the monad *)

Record world := World {
  store : gmap path obj;
  spark_up : bool;
  cur : nat;                          (* index of the cell being run *)
  calls : list (nat * call);
  accesses : list (nat * access);
  outputs : list (nat * output);
}.

Inductive exn :=
| NameError (x : string)
| TypeError (what : string)
| KeyError (k : string)
| FileNotFoundError (p : string)
| EmptyDataError
| CalledProcessError (status : nat)
| AttributeError (what : string)
| AnalysisException (what : string)
| PlatformError (what : string).

Inductive outcome (A : Type) :=
| Ok (a : A)
| Raise (e : exn).
Arguments Ok {A} a.
Arguments Raise {A} e.

Definition M (A : Type) : Type := world → outcome A * world.

Definition ret {A} (a : A) : M A := λ w, (Ok a, w).
Definition raise {A} (e : exn) : M A := λ w, (Raise e, w).
Definition bind {A B} (f : A → M B) (m : M A) : M B :=
  λ w, match m w with
       | (Ok a, w') => f a w'
       | (Raise e, w') => (Raise e, w')
       end.

#[global] Instance M_ret : MRet M := @ret.
#[global] Instance M_bind : MBind M := @bind.

Definition get_store : M (gmap path obj) := λ w, (Ok (store w), w).
Definition put_store (s : gmap path obj) : M unit :=
  λ w, (Ok tt, World s (spark_up w) (cur w) (calls w) (accesses w) (outputs w)).
Definition get_spark : M bool := λ w, (Ok (spark_up w), w).
Definition put_spark (b : bool) : M unit :=
  λ w, (Ok tt, World (store w) b (cur w) (calls w) (accesses w) (outputs w)).
Definition enter (i : nat) : M unit :=
  λ w, (Ok tt, World (store w) (spark_up w) i (calls w) (accesses w) (outputs w)).
Definition log (c : call) : M unit :=
  λ w, (Ok tt, World (store w) (spark_up w) (cur w)
                 (calls w ++ [(cur w, c)]) (accesses w) (outputs w)).
Definition touch (a : access) : M unit :=
  λ w, (Ok tt, World (store w) (spark_up w) (cur w)
                 (calls w) (accesses w ++ [(cur w, a)]) (outputs w)).
Definition display (o : output) : M unit :=
  λ w, (Ok tt, World (store w) (spark_up w) (cur w)
                 (calls w) (accesses w) (outputs w ++ [(cur w, o)])).

Definition expect {A} (e : exn) (o : option A) : M A :=
  match o with Some a => ret a | None => raise e end.

(** ** Values held by the kernel *)

Record frames_client := FramesClient { fc_address : string; fc_container : string }.

Record pdf := Pdf {
  pd_index : option string;
  pd_columns : list string;
  pd_rows : list row;
}.

Record session := Session { app_name : string }.

(** Row conditions of [where]: a column compared with an integer literal. *)
Inductive cond := Gt (col : string) (n : Z).

(** A Spark DataFrame is lazy: it holds the plan that an action runs. *)
Inductive plan :=
| Scan (format : string) (options : list (string * string)) (p : string)
| Filter (c : cond) (src : plan)
| Coalesce (n : nat) (src : plan).

Record sdf := Sdf { sd_schema : list string; sd_plan : plan }.

Record reader := Reader { r_format : option string; r_options : list (string * string) }.

Record writer := Writer {
  w_df : sdf;
  w_format : option string;
  w_mode : string;
  w_options : list (string * string);
}.

Inductive pyval := PandasDF (d : pdf) | SparkDF (d : sdf).

(** The names the cells bind ([None]: not bound yet). *)
Record kernel := Kernel {
  modules : list string;
  client : option frames_client;
  sample_dir : option string;
  sample_dir_path : option string;
  sample_dir_url_path : option string;
  df : option pyval;
  nosql_table : option string;
  spark : option session;
  myDF2 : option pyval;
}.

Definition fresh_kernel : kernel :=
  Kernel [] None None None None None None None None.

Definition bind_module (x : string) (k : kernel) : kernel :=
  Kernel (x :: modules k) (client k) (sample_dir k) (sample_dir_path k)
    (sample_dir_url_path k) (df k) (nosql_table k) (spark k) (myDF2 k).
Definition bind_client (v : frames_client) (k : kernel) : kernel :=
  Kernel (modules k) (Some v) (sample_dir k) (sample_dir_path k)
    (sample_dir_url_path k) (df k) (nosql_table k) (spark k) (myDF2 k).
Definition bind_sample_dir (v : string) (k : kernel) : kernel :=
  Kernel (modules k) (client k) (Some v) (sample_dir_path k)
    (sample_dir_url_path k) (df k) (nosql_table k) (spark k) (myDF2 k).
Definition bind_sample_dir_path (v : string) (k : kernel) : kernel :=
  Kernel (modules k) (client k) (sample_dir k) (Some v)
    (sample_dir_url_path k) (df k) (nosql_table k) (spark k) (myDF2 k).
Definition bind_sample_dir_url_path (v : string) (k : kernel) : kernel :=
  Kernel (modules k) (client k) (sample_dir k) (sample_dir_path k)
    (Some v) (df k) (nosql_table k) (spark k) (myDF2 k).
Definition bind_df (v : pyval) (k : kernel) : kernel :=
  Kernel (modules k) (client k) (sample_dir k) (sample_dir_path k)
    (sample_dir_url_path k) (Some v) (nosql_table k) (spark k) (myDF2 k).
Definition bind_nosql_table (v : string) (k : kernel) : kernel :=
  Kernel (modules k) (client k) (sample_dir k) (sample_dir_path k)
    (sample_dir_url_path k) (df k) (Some v) (spark k) (myDF2 k).
Definition bind_spark (v : session) (k : kernel) : kernel :=
  Kernel (modules k) (client k) (sample_dir k) (sample_dir_path k)
    (sample_dir_url_path k) (df k) (nosql_table k) (Some v) (myDF2 k).
Definition bind_myDF2 (v : pyval) (k : kernel) : kernel :=
  Kernel (modules k) (client k) (sample_dir k) (sample_dir_path k)
    (sample_dir_url_path k) (df k) (nosql_table k) (spark k) (Some v).

(** Reading a name: [NameError] when it is not bound. *)
Definition py_name {A} (x : string) (v : option A) : M A := expect (NameError x) v.

Definition py_module (k : kernel) (x : string) : M unit :=
  if Py.elem x (modules k) then ret tt else raise (NameError x).

Definition as_pandas (v : pyval) : M pdf :=
  match v with PandasDF d => ret d | SparkDF _ => raise (AttributeError "not a pandas DataFrame") end.
Definition as_spark (v : pyval) : M sdf :=
  match v with SparkDF d => ret d | PandasDF _ => raise (AttributeError "not a Spark DataFrame") end.

(** ** The platform: reference semantics of the operations the cells call

    The data store is one name space of containers.  The local mount
    [/User] is the running user's directory of the [users] container,
    [/v3io] is the root of all containers, a [v3io://container/path] URL
    names the same objects, and the Frames client addresses tables
    relative to its container.  NoSQL tables appear as directories in the
    file-system view. *)
Section Platform.
Context `{Env}.

Definition kv_format : string := "io.iguaz.v3io.spark.sql.kv".

Definition home : path := ["users"; user].

Definition getenv (name : string) : option string :=
  if String.eqb name "V3IO_USERNAME" then Some user
  else if String.eqb name "V3IO_HOME" then Some ("users/" +:+ user)
  else if String.eqb name "V3IO_HOME_URL" then Some ("v3io://users/" +:+ user)
  else None.

Definition resolve_fs (p : string) : option path :=
  if Py.startswith_sep p then
    match Py.components p with
    | m :: rest =>
        if String.eqb m "User" then Some (home ++ rest)
        else if String.eqb m "v3io" then Some rest
        else None
    | [] => None
    end
  else None.

Definition resolve_url (p : string) : option path :=
  Py.components <$> Py.strip_prefix "v3io://" p.

Definition resolve_table (container table : string) : path :=
  container :: Py.components table.

Definition parent (q : path) : path := take (length q - 1) q.

Definition prefixes (q : path) : list path := (λ n, take n q) <$> seq 1 (length q).

(** [mkdir -p]: every missing ancestor is created; an ancestor that exists
    as a regular file makes the command fail where it stands. *)
Fixpoint mkdirs (s : gmap path obj) (qs : list path) : gmap path obj * bool :=
  match qs with
  | [] => (s, true)
  | q :: qs' =>
      match s !! q with
      | None => mkdirs (<[q := Dir]> s) qs'
      | Some o => if is_dirlike o then mkdirs s qs' else (s, false)
      end
  end.

(** A file can be opened for writing where its parent is a directory and
    nothing but a regular file is in its place. *)
Definition can_create (s : gmap path obj) (q : path) : bool :=
  match s !! parent q with
  | Some o => is_dirlike o &&
              match s !! q with None | Some (File _) => true | Some _ => false end
  | None => false
  end.

Definition children (s : gmap path obj) (d : path) : list (string * bool) :=
  omap (λ qo : path * obj,
          if bool_decide (parent qo.1 = d)
          then (λ name, (name, is_dirlike qo.2)) <$> last qo.1
          else None)
       (map_to_list s).

(** Everything at or below [q] is removed. *)
Definition remove_tree (q : path) (s : gmap path obj) : gmap path obj :=
  filter (λ qo : path * obj, ¬ q `prefix_of` qo.1) s.

(** Items are written one by one under the value of the key attribute; a
    later row replaces an earlier one with the same key. *)
Definition upsert (key : string) (items : gmap string row) (rows : list row)
  : gmap string row :=
  foldl (λ m r, match row_get key r with Some k => <[k := r]> m | None => m end)
        items rows.

Definition opt_get (k : string) (opts : list (string * string)) : option string :=
  row_get k (reverse opts).

Definition opt_true (k : string) (opts : list (string * string)) : bool :=
  match opt_get k opts with Some v => String.eqb v "true" | None => false end.

(** *** Shell commands (each returns its exit status) *)

Definition sh_mkdir_p (p : string) : M nat :=
  log (Call Shell "mkdir" [AStr "-p"; AStr p]);;
  touch (Access (ViaShell "mkdir") MakesDir p);;
  match resolve_fs p with
  | None => ret 1
  | Some q =>
      s ← get_store;
      let '(s', ok) := mkdirs s (prefixes q) in
      put_store s';; ret (if ok then 0 else 1)
  end.

(** [curl -L url > target]: the shell opens (and empties) the target
    first, and where it cannot, curl is not run and the status is the
    shell's; curl then fetches the URL into the target, and where the
    transfer fails the status is curl's and the target holds what curl had
    written by then. *)
Definition sh_curl_L_to (url target : string) : M nat :=
  log (Call Shell "curl" [AStr "-L"; AStr url; AStr ">"; AStr target]);;
  touch (Access (ViaShell "curl") Writes target);;
  match resolve_fs target with
  | None => ret (Pos.to_nat redirect_status)
  | Some q =>
      s ← get_store;
      if can_create s q then
        touch (Access (ViaShell "curl") Fetches url);;
        match remote url with
        | Some doc => put_store (<[q := File doc]> s);; ret 0
        | None =>
            put_store (<[q := File (curl_failure url).2]> s);;
            ret (Pos.to_nat (curl_failure url).1)
        end
      else ret (Pos.to_nat redirect_status)
  end.

Definition sh_ls_l (p : string) : M nat :=
  log (Call Shell "ls" [AStr "-l"; AStr p]);;
  touch (Access (ViaShell "ls") Lists p);;
  match resolve_fs p with
  | None => ret 2
  | Some q =>
      s ← get_store;
      match s !! q with
      | None => display (Message "No such file or directory");; ret 2
      | Some (File _) => display (Listing [(default p (last q), false)]);; ret 0
      | Some Dir => display (Listing (children s q));; ret 0
      | Some (Table _ _ items) =>
          display (Listing ((λ kv, (kv.1, false)) <$> map_to_list items));; ret 0
      end
  end.

(** IPython's [!cmd] ignores the exit status; the [%%sh] cell magic raises
    when the script's status is not zero. *)
Definition bang (cmd : M nat) : M unit := cmd;; ret tt.

Definition sh_magic (script : M nat) : M unit :=
  st ← script;
  match st with 0 => ret tt | _ => raise (CalledProcessError st) end.

(** *** Python: imports and [os] *)

Definition py_import (module alias : string) (k : kernel) : M kernel :=
  log (Call PyImport "import" [AStr module; AStr alias]);;
  ret (bind_module alias k).

Definition os_path_join_any (a : option string) (p : list string) : M string :=
  log (Call PyOs "os.path.join"
         (match a with Some a => AStr a | None => ARef "None" end :: (AStr <$> p)));;
  match a with
  | Some a => ret (Py.posix_join a p)
  | None => raise (TypeError "expected str, bytes or os.PathLike object, not NoneType")
  end.

Definition os_path_join (a : string) (p : list string) : M string :=
  os_path_join_any (Some a) p.

Definition os_getenv (name : string) : M (option string) :=
  log (Call PyOs "os.getenv" [AStr name]);;
  ret (getenv name).

(** *** pandas *)

(** The header of a document and its rows as pandas holds them. *)
Definition pd_frame (doc : csv) : list string * list row :=
  match doc with
  | [] => ([], [])
  | hdr :: _ => (hdr, (λ fs, zip hdr fs) <$> pd_values doc)
  end.

(** [pd.read_csv(p)]: the first line is the header.  A line with more
    fields than the header, which pandas rejects, is read here with the
    fields beyond the header dropped. *)
Definition pd_read_csv (p : string) : M pdf :=
  log (Call Pandas "read_csv" [AStr p]);;
  touch (Access ViaPandas Reads p);;
  q ← expect (FileNotFoundError p) (resolve_fs p);
  s ← get_store;
  match s !! q with
  | Some (File []) => raise EmptyDataError
  | Some (File doc) => ret (Pdf None (pd_frame doc).1 (pd_frame doc).2)
  | _ => raise (FileNotFoundError p)
  end.

(** [df.set_index(col, inplace=True)] *)
Definition pdf_set_index (col : string) (d : pdf) : M pdf :=
  log (Call Pandas "DataFrame.set_index" [AStr col; AKw "inplace" (ARef "True")]);;
  if Py.elem col (pd_columns d)
  then ret (Pdf (Some col) (filter (λ c, c ≠ col) (pd_columns d)) (pd_rows d))
  else raise (KeyError col).

Definition pdf_head (d : pdf) : M unit :=
  log (Call Pandas "DataFrame.head" []);;
  display (Frame (take 5 (pd_rows d))).

(** *** Frames *)

Definition v3f_Client (address container : string) : M frames_client :=
  log (Call Frames "Client" [AStr address; AKw "container" (AStr container)]);;
  ret (FramesClient address container).

Definition is_nosql (backend : string) : bool :=
  String.eqb backend "nosql" || String.eqb backend "kv".

(** [client.write(backend, table, df)]: the DataFrame's index is the
    table's primary key. *)
Definition frames_write (c : frames_client) (backend table : string) (v : pyval)
  : M unit :=
  log (Call Frames "Client.write" [AStr backend; AStr table; ARef "df"]);;
  touch (Access (ViaFrames (fc_container c) backend) Writes table);;
  if is_nosql backend then
    d ← as_pandas v;
    key ← expect (PlatformError "the DataFrame has no named index") (pd_index d);
    s ← get_store;
    let q := resolve_table (fc_container c) table in
    let schema := key :: pd_columns d in
    match s !! q with
    | None => put_store (<[q := Table key schema (upsert key ∅ (pd_rows d))]> s)
    | Some (Table _ _ items) =>
        put_store (<[q := Table key schema (upsert key items (pd_rows d))]> s)
    | Some _ => raise (PlatformError "not a table")
    end
  else raise (PlatformError "backend not modelled").

(** *** Spark *)

Definition need_spark : M unit :=
  up ← get_spark;
  if (up : bool) then ret tt else raise (PlatformError "the Spark session is stopped").

(** [SparkSession.builder.appName(name).getOrCreate()] *)
Definition SparkSession_getOrCreate (k : kernel) (name : string) : M session :=
  py_module k "SparkSession";;
  log (Call Spark "SparkSession.builder.appName" [AStr name]);;
  log (Call Spark "getOrCreate" []);;
  put_spark true;;
  ret (Session name).

Definition spark_read (ss : session) : M reader :=
  log (Call Spark "SparkSession.read" []);;
  ret (Reader None []).

Definition reader_option (k v : string) (r : reader) : M reader :=
  log (Call Spark "DataFrameReader.option" [AStr k; AStr v]);;
  ret (Reader (r_format r) (r_options r ++ [(k, v)])).

Definition reader_format (f : string) (r : reader) : M reader :=
  log (Call Spark "DataFrameReader.format" [AStr f]);;
  ret (Reader (Some f) (r_options r)).

(** The columns and the rows a scan of [p] yields. *)
Definition scan (s : gmap path obj) (f : string) (opts : list (string * string))
    (p : string) : option (list string * list row) :=
  q ← resolve_url p;
  o ← s !! q;
  match o with
  | File doc =>
      if String.eqb f "csv" then
        if opt_true "header" opts then Some (csv_rows doc)
        else Some ((positional (default [] (head doc))).*1, positional <$> doc)
      else None
  | Table _ schema items =>
      if String.eqb f kv_format then Some (schema, (map_to_list items).*2) else None
  | Dir => None
  end.

(** [column > n] on a row whose cells are strings: the cell is cast to
    [int], and a row whose cell has no value is not selected. *)
Definition holds (c : cond) (r : row) : bool :=
  match c with
  | Gt col n =>
      match row_get col r ≫= Sql.cast_int with
      | Some v => bool_decide (n < v)%Z
      | None => false
      end
  end.

(** [coalesce(n)] never increases the number of partitions. *)
Definition coalesce_parts (n : nat) (parts : list (list row)) : list (list row) :=
  if decide (n < length parts)
  then take (n - 1) parts ++ [concat (drop (n - 1) parts)]
  else parts.

Fixpoint eval_plan (s : gmap path obj) (pl : plan) : option (list (list row)) :=
  match pl with
  | Scan f opts p => (λ hr, scan_split hr.2) <$> scan s f opts p
  | Filter c src => fmap (M := list) (filter (λ r, holds c r = true)) <$> eval_plan s src
  | Coalesce n src => coalesce_parts n <$> eval_plan s src
  end.

Definition do_load (f p : string) (r : reader) : M sdf :=
  touch (Access (ViaSpark f) Reads p);;
  need_spark;;
  s ← get_store;
  hr ← expect (AnalysisException "Path does not exist") (scan s f (r_options r) p);
  ret (Sdf hr.1 (Scan f (r_options r) p)).

Definition reader_csv (p : string) (r : reader) : M sdf :=
  log (Call Spark "DataFrameReader.csv" [AStr p]);;
  do_load "csv" p r.

Definition reader_load (p : string) (r : reader) : M sdf :=
  log (Call Spark "DataFrameReader.load" [AStr p]);;
  do_load (default "parquet" (r_format r)) p r.

Definition df_show (d : sdf) : M unit :=
  log (Call Spark "DataFrame.show" []);;
  need_spark;;
  s ← get_store;
  parts ← expect (AnalysisException "Path does not exist") (eval_plan s (sd_plan d));
  display (Frame (take 20 (concat parts))).

(** A condition of the form [column>integer]. *)
Definition parse_cond (e : string) : option cond :=
  match Py.fields ">"%char EmptyString e with
  | [c; n] => if Py.is_name c then Gt c <$> Py.parse_int n else None
  | _ => None
  end.

(** The column of the schema that a name in an expression refers to: the
    column spelled as the name where there is one, otherwise the first
    column that equals the name ignoring case. *)
Definition resolve_column (col : string) (schema : list string) : option string :=
  if Py.elem col schema then Some col
  else (λ hit : nat * string, hit.2) <$> list_find (λ c, Sql.same_name c col = true) schema.

Definition df_where (e : string) (d : sdf) : M sdf :=
  log (Call Spark "DataFrame.where" [AStr e]);;
  c ← expect (AnalysisException "cannot parse the condition") (parse_cond e);
  match c with
  | Gt col n =>
      match resolve_column col (sd_schema d) with
      | Some col' => ret (Sdf (sd_schema d) (Filter (Gt col' n) (sd_plan d)))
      | None => raise (AnalysisException "cannot resolve the column")
      end
  end.

Definition df_coalesce (n : Z) (d : sdf) : M sdf :=
  log (Call Spark "DataFrame.coalesce" [AInt n]);;
  if (0 <? n)%Z
  then ret (Sdf (sd_schema d) (Coalesce (Z.to_nat n) (sd_plan d)))
  else raise (PlatformError "the number of partitions must be positive").

Definition df_write (d : sdf) : M writer :=
  log (Call Spark "DataFrame.write" []);;
  ret (Writer d None "errorifexists" []).

Definition writer_format (f : string) (w : writer) : M writer :=
  log (Call Spark "DataFrameWriter.format" [AStr f]);;
  ret (Writer (w_df w) (Some f) (w_mode w) (w_options w)).

Definition known_mode (m : string) : bool :=
  Py.elem m ["append"; "overwrite"; "ignore"; "error"; "errorifexists"; "default"].

Definition writer_mode (m : string) (w : writer) : M writer :=
  log (Call Spark "DataFrameWriter.mode" [AStr m]);;
  if known_mode m
  then ret (Writer (w_df w) (w_format w) m (w_options w))
  else raise (PlatformError "unknown save mode").

Definition writer_option (k v : string) (w : writer) : M writer :=
  log (Call Spark "DataFrameWriter.option" [AStr k; AStr v]);;
  ret (Writer (w_df w) (w_format w) (w_mode w) (w_options w ++ [(k, v)])).

(** Writing to the NoSQL data source: the [key] option names the
    primary-key attribute. *)
Definition kv_save (q : path) (w : writer) (rows : list row) : M unit :=
  key ← expect (PlatformError "the key option is missing") (opt_get "key" (w_options w));
  let schema := sd_schema (w_df w) in
  if Py.elem key schema then
    s ← get_store;
    match s !! q with
    | None => put_store (<[q := Table key schema (upsert key ∅ rows)]> s)
    | Some (Table _ old items) =>
        if String.eqb (w_mode w) "append" then
          if bool_decide (old = schema) || opt_true "allow-overwrite-schema" (w_options w)
          then put_store (<[q := Table key schema (upsert key items rows)]> s)
          else raise (PlatformError "the schema differs")
        else if String.eqb (w_mode w) "overwrite" then
          put_store (<[q := Table key schema (upsert key ∅ rows)]> s)
        else if String.eqb (w_mode w) "ignore" then ret tt
        else raise (AnalysisException "the path already exists")
    | Some _ => raise (PlatformError "not a table")
    end
  else raise (AnalysisException "cannot resolve the key column").

(** The number of a partition in five digits. *)
Definition pad5 (i : nat) : string :=
  let d := pretty i in
  String.concat EmptyString (replicate (5 - String.length d) "0") +:+ d.

(** The file a task writes for partition [i]:
    [part-<i>-<job id>-c000.csv]. *)
Definition part_name (i : nat) : string :=
  "part-" +:+ pad5 i +:+ "-" +:+ job_id +:+ "-c000.csv".

(** The partitions for which a task writes a file: the first one, and
    every other one that has rows; a DataFrame without partitions is
    written by one empty task. *)
Definition written_parts (parts : list (list row)) : list (nat * list row) :=
  filter (λ ip : nat * list row, ip.1 = 0 ∨ ip.2 ≠ [])
         (imap pair (match parts with [] => [[]] | _ => parts end)).

(** The directory [q], one file per written partition under it, and the
    marker [_SUCCESS] that the committed job leaves. *)
Definition write_parts (q : path) (docs : list (nat * csv)) (s : gmap path obj)
  : gmap path obj :=
  foldr (λ (id : nat * csv) acc, <[q ++ [part_name id.1] := File id.2]> acc)
        (<[q ++ ["_SUCCESS"] := File []]> (<[q := Dir]> s))
        docs.

Definition part_doc (w : writer) (part : list row) : csv :=
  (if opt_true "header" (w_options w) then [sd_schema (w_df w)] else [])
  ++ (row_values <$> part).

Definition csv_save (q : path) (w : writer) (parts : list (list row)) : M unit :=
  s ← get_store;
  let docs := (λ ip : nat * list row, (ip.1, part_doc w ip.2)) <$> written_parts parts in
  if String.eqb (w_mode w) "overwrite" then
    put_store (write_parts q docs (remove_tree q s))
  else
    match s !! q with
    | None => put_store (write_parts q docs s)
    | Some _ =>
        if String.eqb (w_mode w) "ignore" then ret tt
        else if String.eqb (w_mode w) "append" then
          raise (PlatformError "appending to a directory of files is not modelled")
        else raise (AnalysisException "the path already exists")
    end.

Definition do_save (f p : string) (w : writer) : M unit :=
  touch (Access (ViaSpark f) Writes p);;
  need_spark;;
  s ← get_store;
  parts ← expect (AnalysisException "Path does not exist") (eval_plan s (sd_plan (w_df w)));
  q ← expect (PlatformError "unsupported path") (resolve_url p);
  if String.eqb f kv_format then kv_save q w (concat parts)
  else if String.eqb f "csv" then csv_save q w parts
  else raise (PlatformError "data source not modelled").

Definition writer_save (p : string) (w : writer) : M unit :=
  log (Call Spark "DataFrameWriter.save" [AStr p]);;
  do_save (default "parquet" (w_format w)) p w.

Definition writer_csv (p : string) (w : writer) : M unit :=
  log (Call Spark "DataFrameWriter.csv" [AStr p]);;
  do_save "csv" p w.

Definition spark_stop (ss : session) : M unit :=
  log (Call Spark "SparkSession.stop" []);;
  put_spark false.

(** ** The code cells of [file-access.ipynb]

    Cells are numbered by their position in the notebook; the markdown
    cells in between have no code. *)

Definition cell := kernel → M kernel.

(** Cell 5:
<<
import pandas as pd
import v3io_frames as v3f
import os
>> *)
Definition cell_05 : cell := λ k,
  k ← py_import "pandas" "pd" k;
  k ← py_import "v3io_frames" "v3f" k;
  py_import "os" "os" k.

(** Cell 7:
<<
client = v3f.Client('framesd:8081', container='users')
>> *)
Definition cell_07 : cell := λ k,
  py_module k "v3f";;
  c ← v3f_Client "framesd:8081" "users";
  ret (bind_client c k).

(** Cell 9:
<<
sample_dir = os.path.join('examples', 'stocks')
sample_dir_path = os.path.join('/User', sample_dir)
sample_dir_url_path = os.path.join(os.getenv('V3IO_HOME_URL'), sample_dir)
>> *)
Definition cell_09 : cell := λ k,
  py_module k "os";;
  v ← os_path_join "examples" ["stocks"];
  let k := bind_sample_dir v k in
  sd ← py_name "sample_dir" (sample_dir k);
  v ← os_path_join "/User" [sd];
  let k := bind_sample_dir_path v k in
  home_url ← os_getenv "V3IO_HOME_URL";
  sd ← py_name "sample_dir" (sample_dir k);
  v ← os_path_join_any home_url [sd];
  ret (bind_sample_dir_url_path v k).

(** Cell 11:
<<
!mkdir -p /User/examples/stocks
>> *)
Definition cell_11 : cell := λ k,
  bang (sh_mkdir_p "/User/examples/stocks");;
  ret k.

Definition stocks_url : string :=
  "https://s3.wasabisys.com/iguazio/data/stocks/2018-03-26_BINS_XETR08.csv".

(** Cell 14:
<<
%%sh
curl -L "https://s3.wasabisys.com/iguazio/data/stocks/2018-03-26_BINS_XETR08.csv" > /User/examples/stocks/stocks_example.csv
>> *)
Definition cell_14 : cell := λ k,
  sh_magic (sh_curl_L_to stocks_url "/User/examples/stocks/stocks_example.csv");;
  ret k.

(** Cell 17:
<<
df = pd.read_csv(os.path.join(sample_dir_path, 'stocks_example.csv'))
df.set_index('ISIN', inplace=True)
df.head()
>> *)
Definition cell_17 : cell := λ k,
  py_module k "pd";;
  py_module k "os";;
  sdp ← py_name "sample_dir_path" (sample_dir_path k);
  p ← os_path_join sdp ["stocks_example.csv"];
  d ← pd_read_csv p;
  let k := bind_df (PandasDF d) k in
  d ← py_name "df" (df k) ≫= as_pandas;
  d ← pdf_set_index "ISIN" d;
  let k := bind_df (PandasDF d) k in
  d ← py_name "df" (df k) ≫= as_pandas;
  pdf_head d;;
  ret k.

(** Cell 20:
<<
nosql_table = os.path.join(sample_dir, 'stocks_example_tab')
client.write('nosql', nosql_table, df)
>> *)
Definition cell_20 : cell := λ k,
  py_module k "os";;
  sd ← py_name "sample_dir" (sample_dir k);
  v ← os_path_join sd ["stocks_example_tab"];
  let k := bind_nosql_table v k in
  c ← py_name "client" (client k);
  t ← py_name "nosql_table" (nosql_table k);
  d ← py_name "df" (df k);
  frames_write c "nosql" t d;;
  ret k.

(** Cell 25:
<<
from pyspark.sql import SparkSession
spark = SparkSession.builder.appName("Iguazio Data Science Platform file-access tutorial").getOrCreate()
df = spark.read.option("header", "true") \
    .csv(os.path.join(sample_dir_url_path, 'stocks_example.csv'))
df.show()
>> *)
Definition cell_25 : cell := λ k,
  k ← py_import "pyspark.sql" "SparkSession" k;
  ss ← SparkSession_getOrCreate k "Iguazio Data Science Platform file-access tutorial";
  let k := bind_spark ss k in
  ss ← py_name "spark" (spark k);
  r ← spark_read ss;
  r ← reader_option "header" "true" r;
  py_module k "os";;
  sdu ← py_name "sample_dir_url_path" (sample_dir_url_path k);
  p ← os_path_join sdu ["stocks_example.csv"];
  d ← reader_csv p r;
  let k := bind_df (SparkDF d) k in
  d ← py_name "df" (df k) ≫= as_spark;
  df_show d;;
  ret k.

(** Cell 26:
<<
df.write.format("io.iguaz.v3io.spark.sql.kv") \
    .mode("append").option("key", "ISIN") \
    .option("allow-overwrite-schema", "true") \
    .save(os.path.join(sample_dir_url_path, 'stocks_tab_spark'))
>> *)
Definition cell_26 : cell := λ k,
  d ← py_name "df" (df k) ≫= as_spark;
  w ← df_write d;
  w ← writer_format "io.iguaz.v3io.spark.sql.kv" w;
  w ← writer_mode "append" w;
  w ← writer_option "key" "ISIN" w;
  w ← writer_option "allow-overwrite-schema" "true" w;
  py_module k "os";;
  sdu ← py_name "sample_dir_url_path" (sample_dir_url_path k);
  p ← os_path_join sdu ["stocks_tab_spark"];
  writer_save p w;;
  ret k.

(** Cell 29:
<<
myDF2 = spark.read.format("io.iguaz.v3io.spark.sql.kv") \
    .load(os.path.join(sample_dir_url_path, 'stocks_tab_spark')) \
    .where("TradedVolume>20000")
>> *)
Definition cell_29 : cell := λ k,
  ss ← py_name "spark" (spark k);
  r ← spark_read ss;
  r ← reader_format "io.iguaz.v3io.spark.sql.kv" r;
  py_module k "os";;
  sdu ← py_name "sample_dir_url_path" (sample_dir_url_path k);
  p ← os_path_join sdu ["stocks_tab_spark"];
  d ← reader_load p r;
  d ← df_where "TradedVolume>20000" d;
  ret (bind_myDF2 (SparkDF d) k).

(** Cell 30:
<<
myDF2.coalesce(1).write.mode('overwrite') \
    .csv(os.path.join(sample_dir_url_path, 'stocks_high_volume.csv'))
>> *)
Definition cell_30 : cell := λ k,
  d ← py_name "myDF2" (myDF2 k) ≫= as_spark;
  d ← df_coalesce 1 d;
  w ← df_write d;
  w ← writer_mode "overwrite" w;
  py_module k "os";;
  sdu ← py_name "sample_dir_url_path" (sample_dir_url_path k);
  p ← os_path_join sdu ["stocks_high_volume.csv"];
  writer_csv p w;;
  ret k.

(** Cell 33:
<<
!ls -l /User/examples/stocks/
>> *)
Definition cell_33 : cell := λ k,
  bang (sh_ls_l "/User/examples/stocks/");;
  ret k.

(** Cell 38 holds one line, a comment:
<<
#!rm -rf /User/examples/stocks/
>> *)
Definition cell_38 : cell := λ k, ret k.

(** Cell 41:
<<
spark.stop()
>> *)
Definition cell_41 : cell := λ k,
  ss ← py_name "spark" (spark k);
  spark_stop ss;;
  ret k.

Definition file_access : list (nat * cell) :=
  [(5, cell_05); (7, cell_07); (9, cell_09); (11, cell_11); (14, cell_14);
   (17, cell_17); (20, cell_20); (25, cell_25); (26, cell_26); (29, cell_29);
   (30, cell_30); (33, cell_33); (38, cell_38); (41, cell_41)].


(** ** The code cell of [README.ipynb]

    Cell 52:
<<
%%sh
CSV_PATH="/User/examples/stocks.csv"
curl -L "https://s3.wasabisys.com/iguazio/data/stocks/2018-03-26_BINS_XETR08.csv" > ${CSV_PATH}
>> *)
Definition readme_cell_52 : cell := λ k,
  sh_magic (let CSV_PATH := "/User/examples/stocks.csv" in
            sh_curl_L_to stocks_url CSV_PATH);;
  ret k.

Definition readme : list (nat * cell) := [(52, readme_cell_52)].

(** ** Running cells in order *)

Fixpoint run_cells (cs : list (nat * cell)) (k : kernel) : M kernel :=
  match cs with
  | [] => ret k
  | (i, c) :: cs' => enter i;; k' ← c k; run_cells cs' k'
  end.

Definition boot (s : gmap path obj) : world := World s false 0 [] [] [].

(** Run All in a fresh kernel, over the store [s]. *)
Definition run_all (cs : list (nat * cell)) (s : gmap path obj) : outcome kernel * world :=
  run_cells cs fresh_kernel (boot s).

End Platform.

(** ** A sample environment *)

Definition sample_doc : csv :=
  [ ["ISIN"; "Mnemonic"; "Time"; "TradedVolume"];
    ["CH0038389992"; "BBZA"; "08:00"; "25000"];
    ["CH0038863350"; "NESR"; "08:00"; "1200"];
    ["LU0378438732"; "C001"; "08:00"; "20000"];
    ["CH0038389992"; "BBZA"; "08:01"; "30111"];
    ["LU0411075020"; "DBPD"; "08:01"; "20001"] ].

Definition sample_job : string := "0b0f9a1c-4f0e-4c52-9a57-2f6f1c3d8e11".

Definition sample_env : Env :=
  {| user := "iguazio";
     remote := λ url, if String.eqb url stocks_url then Some sample_doc else None;
     scan_split := λ rows, [take 2 rows; drop 2 rows];
     curl_failure := λ _, (6%positive, []);
     redirect_status := 2%positive;
     job_id := sample_job;
     pd_values := tail |}.

Definition sample_store : gmap path obj := {[ ["users"; "iguazio"] := Dir ]}.

(** ** Environments and stores for the runs that stop early *)

(** The remote site cannot be reached. *)
Definition offline_env : Env :=
  {| user := "iguazio";
     remote := λ _, None;
     scan_split := λ rows, [rows];
     curl_failure := λ _, (7%positive, []);
     redirect_status := 2%positive;
     job_id := sample_job;
     pd_values := tail |}.

(** The remote document has no ISIN column. *)
Definition no_isin_env : Env :=
  {| user := "iguazio";
     remote := λ url,
       if String.eqb url stocks_url
       then Some [ ["Mnemonic"; "TradedVolume"]; ["BBZA"; "25000"] ]
       else None;
     scan_split := λ rows, [rows];
     curl_failure := λ _, (6%positive, []);
     redirect_status := 2%positive;
     job_id := sample_job;
     pd_values := tail |}.

(** The remote document has no TradedVolume column. *)
Definition no_volume_env : Env :=
  {| user := "iguazio";
     remote := λ url,
       if String.eqb url stocks_url
       then Some [ ["ISIN"; "Mnemonic"]; ["CH0038389992"; "BBZA"] ]
       else None;
     scan_split := λ rows, [rows];
     curl_failure := λ _, (6%positive, []);
     redirect_status := 2%positive;
     job_id := sample_job;
     pd_values := tail |}.

(** A home directory in which [examples] is a regular file. *)
Definition blocked_store : gmap path obj :=
  {[ ["users"; "iguazio"] := Dir;
     ["users"; "iguazio"; "examples"] := File [["notes"]] ]}.






(** ** What a complete run leaves, and how its calls and accesses are read

    The definitions below name the paths the cells use, the store each
    stage of [file-access.ipynb] leaves, the transcripts of a complete run,
    and the predicates by which calls and data accesses are classified. *)
Section Outcome.
Context `{Env}.

Definition tagged {A} (w : world) (l : list A) : list (nat * A) := (λ x, (cur w, x)) <$> l.

(** The world after an operation that leaves the store as [s'] and adds
    to the transcripts. *)
Definition advance (s' : gmap path obj) (cs : list call) (acs : list access)
    (os : list output) (w : world) : world :=
  World s' (spark_up w) (cur w)
    (calls w ++ tagged w cs) (accesses w ++ tagged w acs) (outputs w ++ tagged w os).

Definition items_at (s : gmap path obj) (q : path) : gmap string row :=
  match s !! q with Some (Table _ _ items) => items | _ => ∅ end.

Definition table_or_free (s : gmap path obj) (q : path) : bool :=
  match s !! q with None | Some (Table _ _ _) => true | Some _ => false end.

Definition home_url : string := "v3io://users/" +:+ user.
Definition sample_url : string := "v3io://users/" +:+ user +:+ "/examples/stocks".
Definition leaf_url (leaf : string) : string :=
  "v3io://users/" +:+ user +:+ "/examples/stocks/" +:+ leaf.
Definition sample : path := ["users"; user; "examples"; "stocks"].

Definition csv_p : path := sample ++ ["stocks_example.csv"].
Definition frames_tab_p : path := ["users"; "examples"; "stocks"; "stocks_example_tab"].
Definition spark_tab_p : path := sample ++ ["stocks_tab_spark"].
Definition out_p : path := sample ++ ["stocks_high_volume.csv"].

Definition dirs_free (s : gmap path obj) (q : path) : bool :=
  forallb (λ q', match s !! q' with None | Some Dir => true | Some _ => false end)
          (prefixes q).

Definition file_or_free (s : gmap path obj) (q : path) : bool :=
  match s !! q with None | Some (File _) => true | Some _ => false end.

Definition good_doc (doc : csv) : bool :=
  match doc with
  | hdr :: _ => Py.elem "ISIN" hdr && Py.elem "TradedVolume" hdr
  | [] => false
  end.

Definition ready (s : gmap path obj) : bool :=
  dirs_free s sample
  && file_or_free s csv_p
  && match remote stocks_url with Some doc => good_doc doc | None => false end
  && table_or_free s frames_tab_p
  && table_or_free s spark_tab_p.

Definition stage_dirs (s : gmap path obj) : gmap path obj :=
  (mkdirs s (prefixes sample)).1.

Definition stage_csv (doc : csv) (s : gmap path obj) : gmap path obj :=
  <[csv_p := File doc]> s.

Definition stage_frames (doc : csv) (s : gmap path obj) : gmap path obj :=
  <[frames_tab_p :=
      Table "ISIN" ("ISIN" :: filter (λ c, c ≠ "ISIN") (pd_frame doc).1)
        (upsert "ISIN" (items_at s frames_tab_p) (pd_frame doc).2)]> s.

Definition stage_spark (doc : csv) (s : gmap path obj) : gmap path obj :=
  <[spark_tab_p :=
      Table "ISIN" (csv_rows doc).1
        (upsert "ISIN" (items_at s spark_tab_p) (concat (scan_split (csv_rows doc).2)))]> s.

Definition high_volume (r : row) : Prop := holds (Gt "TradedVolume" 20000) r = true.

Definition selected (s : gmap path obj) : list (list row) :=
  coalesce_parts 1
    (filter high_volume <$> scan_split (map_to_list (items_at s spark_tab_p)).*2).

Definition stage_out (s : gmap path obj) : gmap path obj :=
  write_parts out_p
    ((λ ip : nat * list row, (ip.1, row_values <$> ip.2)) <$> written_parts (selected s))
    (remove_tree out_p s).

Definition final_store (doc : csv) (s : gmap path obj) : gmap path obj :=
  stage_out (stage_spark doc (stage_frames doc (stage_csv doc (stage_dirs s)))).

Definition k05 : kernel := bind_module "os" (bind_module "v3f" (bind_module "pd" fresh_kernel)).

Definition k07 : kernel := bind_client (FramesClient "framesd:8081" "users") k05.

Definition k09 : kernel :=
  bind_sample_dir_url_path sample_url
    (bind_sample_dir_path "/User/examples/stocks" (bind_sample_dir "examples/stocks" k07)).

Definition pandas_df (hdr : list string) (body : list (list string)) : pdf :=
  Pdf (Some "ISIN") (filter (λ c, c ≠ "ISIN") hdr) (pd_frame (hdr :: body)).2.

Definition k17 hdr body : kernel := bind_df (PandasDF (pandas_df hdr body)) k09.

Definition k20 hdr body : kernel :=
  bind_nosql_table "examples/stocks/stocks_example_tab" (k17 hdr body).

Definition app_title : string := "Iguazio Data Science Platform file-access tutorial".

Definition csv_df (hdr : list string) : sdf :=
  Sdf hdr (Scan "csv" [("header", "true")] (leaf_url "stocks_example.csv")).

Definition k25 hdr body : kernel :=
  bind_df (SparkDF (csv_df hdr))
    (bind_spark (Session app_title) (bind_module "SparkSession" (k20 hdr body))).

Definition table_df (schema : list string) : sdf :=
  Sdf schema (Filter (Gt "TradedVolume" 20000)
                (Scan kv_format [] (leaf_url "stocks_tab_spark"))).

Definition k29 hdr body : kernel := bind_myDF2 (SparkDF (table_df hdr)) (k25 hdr body).

Definition out_writer (schema : list string) : writer :=
  Writer (Sdf schema (Coalesce 1 (sd_plan (table_df schema)))) None "overwrite" [].

(** The marker of the committed job and the file of the one partition,
    under the output directory. *)
Definition success_p : path := out_p ++ ["_SUCCESS"].
Definition part_p : path := out_p ++ [part_name 0].

(** The rows the last write selects: those of the Spark-written table
    with a traded volume above 20000, in scan order. *)
Definition selected_rows (s : gmap path obj) : list row :=
  concat (filter high_volume <$> scan_split (map_to_list (items_at s spark_tab_p)).*2).

(** The library calls of a complete run, tagged by cell. *)
Definition transcript : list (nat * call) :=
  [ (5, Call PyImport "import" [AStr "pandas"; AStr "pd"]);
    (5, Call PyImport "import" [AStr "v3io_frames"; AStr "v3f"]);
    (5, Call PyImport "import" [AStr "os"; AStr "os"]);
    (7, Call Frames "Client" [AStr "framesd:8081"; AKw "container" (AStr "users")]);
    (9, Call PyOs "os.path.join" [AStr "examples"; AStr "stocks"]);
    (9, Call PyOs "os.path.join" [AStr "/User"; AStr "examples/stocks"]);
    (9, Call PyOs "os.getenv" [AStr "V3IO_HOME_URL"]);
    (9, Call PyOs "os.path.join" [AStr home_url; AStr "examples/stocks"]);
    (11, Call Shell "mkdir" [AStr "-p"; AStr "/User/examples/stocks"]);
    (14, Call Shell "curl" [AStr "-L"; AStr stocks_url; AStr ">";
                            AStr "/User/examples/stocks/stocks_example.csv"]);
    (17, Call PyOs "os.path.join" [AStr "/User/examples/stocks"; AStr "stocks_example.csv"]);
    (17, Call Pandas "read_csv" [AStr "/User/examples/stocks/stocks_example.csv"]);
    (17, Call Pandas "DataFrame.set_index" [AStr "ISIN"; AKw "inplace" (ARef "True")]);
    (17, Call Pandas "DataFrame.head" []);
    (20, Call PyOs "os.path.join" [AStr "examples/stocks"; AStr "stocks_example_tab"]);
    (20, Call Frames "Client.write"
           [AStr "nosql"; AStr "examples/stocks/stocks_example_tab"; ARef "df"]);
    (25, Call PyImport "import" [AStr "pyspark.sql"; AStr "SparkSession"]);
    (25, Call Spark "SparkSession.builder.appName" [AStr app_title]);
    (25, Call Spark "getOrCreate" []);
    (25, Call Spark "SparkSession.read" []);
    (25, Call Spark "DataFrameReader.option" [AStr "header"; AStr "true"]);
    (25, Call PyOs "os.path.join" [AStr sample_url; AStr "stocks_example.csv"]);
    (25, Call Spark "DataFrameReader.csv" [AStr (leaf_url "stocks_example.csv")]);
    (25, Call Spark "DataFrame.show" []);
    (26, Call Spark "DataFrame.write" []);
    (26, Call Spark "DataFrameWriter.format" [AStr "io.iguaz.v3io.spark.sql.kv"]);
    (26, Call Spark "DataFrameWriter.mode" [AStr "append"]);
    (26, Call Spark "DataFrameWriter.option" [AStr "key"; AStr "ISIN"]);
    (26, Call Spark "DataFrameWriter.option" [AStr "allow-overwrite-schema"; AStr "true"]);
    (26, Call PyOs "os.path.join" [AStr sample_url; AStr "stocks_tab_spark"]);
    (26, Call Spark "DataFrameWriter.save" [AStr (leaf_url "stocks_tab_spark")]);
    (29, Call Spark "SparkSession.read" []);
    (29, Call Spark "DataFrameReader.format" [AStr "io.iguaz.v3io.spark.sql.kv"]);
    (29, Call PyOs "os.path.join" [AStr sample_url; AStr "stocks_tab_spark"]);
    (29, Call Spark "DataFrameReader.load" [AStr (leaf_url "stocks_tab_spark")]);
    (29, Call Spark "DataFrame.where" [AStr "TradedVolume>20000"]);
    (30, Call Spark "DataFrame.coalesce" [AInt 1]);
    (30, Call Spark "DataFrame.write" []);
    (30, Call Spark "DataFrameWriter.mode" [AStr "overwrite"]);
    (30, Call PyOs "os.path.join" [AStr sample_url; AStr "stocks_high_volume.csv"]);
    (30, Call Spark "DataFrameWriter.csv" [AStr (leaf_url "stocks_high_volume.csv")]);
    (33, Call Shell "ls" [AStr "-l"; AStr "/User/examples/stocks/"]);
    (41, Call Spark "SparkSession.stop" []) ].

(** The data accesses of a complete run, tagged by cell. *)
Definition requests : list (nat * access) :=
  [ (11, Access (ViaShell "mkdir") MakesDir "/User/examples/stocks");
    (14, Access (ViaShell "curl") Writes "/User/examples/stocks/stocks_example.csv");
    (14, Access (ViaShell "curl") Fetches stocks_url);
    (17, Access ViaPandas Reads "/User/examples/stocks/stocks_example.csv");
    (20, Access (ViaFrames "users" "nosql") Writes "examples/stocks/stocks_example_tab");
    (25, Access (ViaSpark "csv") Reads (leaf_url "stocks_example.csv"));
    (26, Access (ViaSpark kv_format) Writes (leaf_url "stocks_tab_spark"));
    (29, Access (ViaSpark kv_format) Reads (leaf_url "stocks_tab_spark"));
    (30, Access (ViaSpark "csv") Writes (leaf_url "stocks_high_volume.csv"));
    (33, Access (ViaShell "ls") Lists "/User/examples/stocks/") ].

Definition shown (doc : csv) (s : gmap path obj) : list (nat * output) :=
  [ (17, Frame (take 5 (pd_frame doc).2));
    (25, Frame (take 20 (concat (scan_split (csv_rows doc).2))));
    (33, Listing (children (final_store doc s) sample)) ].

Definition final_world (doc : csv) (s : gmap path obj) : world :=
  World (final_store doc s) false 41 transcript requests (shown doc s).

Definition ingested : csv := default [] (remote stocks_url).

(** The world a Run All of [file-access.ipynb] leaves behind. *)
Definition after_run (s : gmap path obj) : world := (run_all file_access s).2.

(** *** Classifying calls *)

Definition conversion_cells : list nat := [26; 29; 30].

Definition conversion_calls (w : world) : list call :=
  (filter (λ ic : nat * call, ic.1 ∈ conversion_cells) (calls w)).*2.

(** Calls that carry nothing but configuration: the reader and writer
    accessors, a format string, a save mode, an option (key column, flag),
    a path, and the join that spells the path. *)
Definition config_names : list string :=
  ["SparkSession.read"; "DataFrame.write";
   "DataFrameReader.format"; "DataFrameWriter.format"; "DataFrameWriter.mode";
   "DataFrameReader.option"; "DataFrameWriter.option";
   "DataFrameReader.load"; "DataFrameReader.csv";
   "DataFrameWriter.save"; "DataFrameWriter.csv"].

Definition is_config (c : call) : bool :=
  match c_api c with
  | Spark => Py.elem (c_name c) config_names
  | PyOs => String.eqb (c_name c) "os.path.join"
  | _ => false
  end.

Definition config_only (w : world) : bool := forallb is_config (conversion_calls w).

Definition where_call : call := Call Spark "DataFrame.where" [AStr "TradedVolume>20000"].
Definition coalesce_call : call := Call Spark "DataFrame.coalesce" [AInt 1].

Definition sdk_or_shell (c : call) : bool :=
  match c_api c with
  | Pandas | Spark | Frames | Presto | Dask | CuDF => true
  | Shell => Py.elem (c_name c) ["curl"; "mkdir"; "ls"; "rm"]
  | PyOs | PyImport => false
  end.

(** The SDKs and the shell commands that the cells do use. *)
Definition used_sdk_or_shell (c : call) : bool :=
  match c_api c with
  | Pandas | Spark | Frames => true
  | Shell => Py.elem (c_name c) ["curl"; "mkdir"; "ls"]
  | _ => false
  end.

Definition python_glue (c : call) : bool :=
  match c_api c with
  | PyOs => Py.elem (c_name c) ["os.path.join"; "os.getenv"]
  | PyImport => String.eqb (c_name c) "import"
  | _ => false
  end.

(** The world a Run All of [README.ipynb] leaves behind. *)
Definition after_readme (s : gmap path obj) : world := (run_all readme s).2.

Definition readme_curl : call :=
  Call Shell "curl" [AStr "-L"; AStr stocks_url; AStr ">"; AStr "/User/examples/stocks.csv"].

(** *** Classifying data accesses *)


Definition is_table (o : option obj) : bool :=
  match o with Some (Table _ _ _) => true | _ => false end.

(** Where the target of an access lies in the data store. *)
Definition locate (a : access) : option path :=
  match a_via a with
  | ViaShell _ | ViaPandas => resolve_fs (a_target a)
  | ViaFrames c _ => Some (resolve_table c (a_target a))
  | ViaSpark _ => resolve_url (a_target a)
  end.

(** The objects an access reaches: the one its target names and, for a
    directory listing, the entries it shows. *)
Definition reaches (s : gmap path obj) (a : access) : list path :=
  match locate a with
  | None => []
  | Some q =>
      q :: match a_act a with
           | Lists => (λ e : string * bool, q ++ [e.1]) <$> children s q
           | _ => []
           end
  end.

Definition touches_table (s : gmap path obj) (a : access) : bool :=
  existsb (λ q, is_table (s !! q)) (reaches s a).



(** Which kind of data store an access concerns. *)
Inductive data_store := ObjectStore | FileSystem | NoSQLTable | CsvFile | ParquetHive.

Definition stores_of (a : access) : list data_store :=
  match a_via a with
  | ViaShell _ =>
      match a_act a with Fetches => [ObjectStore] | _ => [FileSystem] end
  | ViaPandas => [FileSystem; CsvFile]
  | ViaFrames _ b => if is_nosql b then [NoSQLTable] else []
  | ViaSpark f =>
      if String.eqb f kv_format then [NoSQLTable]
      else if String.eqb f "csv" then [FileSystem; CsvFile]
      else if Py.elem f ["parquet"; "hive"] then [ParquetHive]
      else []
  end.

Definition concerns (d : data_store) (a : access) : bool :=
  existsb (λ d', match d, d' with
                 | ObjectStore, ObjectStore | FileSystem, FileSystem
                 | NoSQLTable, NoSQLTable | CsvFile, CsvFile
                 | ParquetHive, ParquetHive => true
                 | _, _ => false
                 end) (stores_of a).

Definition some_access (d : data_store) (l : list (nat * access)) : bool :=
  existsb (λ ia : nat * access, concerns d ia.2) l.

(** *** How accesses address the data *)




Definition cell_calls (i : nat) (w : world) : list call :=
  (filter (λ ic : nat * call, ic.1 = i) (calls w)).*2.

(** The write leaves a single file at the path [q]: the words of C2. *)
Definition single_file_at (w : world) (q : path) : bool :=
  match store w !! q with Some (File _) => true | _ => false end.




(** A regular file lies at the path [q]; a regular file lies on the path
    of the sample directory. *)
Definition file_at (s : gmap path obj) (q : path) : bool :=
  match s !! q with Some (File _) => true | _ => false end.

Definition in_the_way (s : gmap path obj) : bool := existsb (file_at s) (prefixes sample).

(** *** The tables and their keys *)




Definition mkdir_call : call := Call Shell "mkdir" [AStr "-p"; AStr "/User/examples/stocks"].
Definition curl_call : call :=
  Call Shell "curl" [AStr "-L"; AStr stocks_url; AStr ">";
                     AStr "/User/examples/stocks/stocks_example.csv"].

(** The cells that read a name bound by an earlier cell, with the first
    such name. *)
Definition needs_kernel : list (cell * string) :=
  [ (cell_07, "v3f"); (cell_09, "os"); (cell_17, "pd"); (cell_20, "os");
    (cell_25, "os"); (cell_26, "df"); (cell_29, "spark"); (cell_30, "myDF2");
    (cell_41, "spark") ].

(** *** The README cell *)

Definition readme_dir : path := ["users"; user; "examples"].
Definition readme_p : path := readme_dir ++ ["stocks.csv"].


Definition sdk_only (w : world) : bool :=
  forallb (λ ic : nat * call, sdk_or_shell ic.2) (calls w).

End Outcome.

(** ** Theory *)

#[local] Arguments String.append !s1 s2 / : simpl nomatch.

#[local] Arguments Py.posix_join : simpl never.
#[local] Arguments getenv : simpl never.
#[local] Arguments resolve_fs : simpl never.
#[local] Arguments resolve_url : simpl never.
#[local] Arguments mkdirs : simpl never.
#[local] Arguments scan : simpl never.
#[local] Arguments eval_plan : simpl never.
#[local] Arguments upsert : simpl never.
#[local] Arguments write_parts : simpl never.
#[local] Arguments remove_tree : simpl never.
#[local] Arguments children : simpl never.
#[local] Arguments can_create : simpl never.
#[local] Arguments csv_rows : simpl never.
#[local] Arguments pd_frame : simpl never.
#[local] Arguments resolve_column : simpl never.

Section Theory.
Context `{Env}.
Hypothesis user_ok : Py.is_name user = true.

Lemma append_assoc (a b c : string) : (a +:+ b) +:+ c = a +:+ b +:+ c.
Proof. induction a as [|x a IH]; [done|]. simpl. f_equal. exact IH. Qed.

Lemma append_empty_r (a : string) : a +:+ EmptyString = a.
Proof. induction a as [|x a IH]; [done|]. simpl. f_equal. exact IH. Qed.

Lemma endswith_sep_app (pre t : string) :
  t ≠ EmptyString → Py.endswith_sep (pre +:+ t) = Py.endswith_sep t.
Proof.
  intros Ht. induction pre as [|x pre IH]; [done|].
  change (String x pre +:+ t) with (String x (pre +:+ t)).
  simpl. destruct (pre +:+ t) eqn:E; [|done].
  destruct pre; simpl in E; [congruence | discriminate].
Qed.

Lemma no_sep_endswith (u : string) : Py.no_sep u = true → Py.endswith_sep u = false.
Proof.
  induction u as [|x u IH]; [done|]. simpl.
  intros [Hx Hu]%andb_prop. destruct u; [by apply negb_true_iff | by apply IH].
Qed.

Lemma is_name_nonempty (u : string) : Py.is_name u = true → u ≠ EmptyString.
Proof. by destruct u. Qed.

Lemma is_name_no_sep (u : string) : Py.is_name u = true → Py.no_sep u = true.
Proof. unfold Py.is_name. by intros [_ ?]%andb_prop. Qed.

Lemma is_name_startswith (u : string) : Py.is_name u = true → Py.startswith_sep u = false.
Proof.
  destruct u as [|x u]; [done|]. unfold Py.is_name. simpl.
  intros [Hx _]%andb_prop. by apply negb_true_iff.
Qed.

Lemma fields_no_sep (u : string) : ∀ cur s,
  Py.no_sep u = true →
  Py.fields Py.sep cur (u +:+ s) = Py.fields Py.sep (cur +:+ u) s.
Proof.
  induction u as [|x u IH]; intros cur s Hu.
  - by rewrite append_empty_r.
  - simpl in Hu. apply andb_prop in Hu as [Hx Hu]. apply negb_true_iff in Hx.
    simpl. rewrite Hx, IH by done.
    by rewrite append_assoc.
Qed.

Lemma fields_name (u : string) :
  Py.no_sep u = true → Py.fields Py.sep EmptyString u = [u].
Proof.
  intros Hu. rewrite <-(append_empty_r u) at 1.
  by rewrite fields_no_sep.
Qed.

Lemma getenv_home_url : getenv "V3IO_HOME_URL" = Some home_url.
Proof. reflexivity. Qed.

Lemma join_step_plain (a b : string) :
  a ≠ EmptyString → Py.endswith_sep a = false → Py.startswith_sep b = false →
  Py.join_step a b = a +:+ "/" +:+ b.
Proof.
  intros Ha Hs Hb. unfold Py.join_step. rewrite Hb, Hs.
  by destruct a.
Qed.

Lemma join_home_url : Py.posix_join home_url ["examples/stocks"] = sample_url.
Proof.
  change (Py.posix_join home_url ["examples/stocks"])
    with (Py.join_step home_url "examples/stocks").
  rewrite join_step_plain; [| done | | done].
  - unfold home_url, sample_url. by rewrite append_assoc.
  - unfold home_url. rewrite endswith_sep_app by by apply is_name_nonempty.
    by apply no_sep_endswith, is_name_no_sep.
Qed.

Lemma join_sample_url (leaf : string) :
  Py.is_name leaf = true → Py.posix_join sample_url [leaf] = leaf_url leaf.
Proof.
  intros Hl.
  change (Py.posix_join sample_url [leaf]) with (Py.join_step sample_url leaf).
  rewrite join_step_plain; [| done | | by apply is_name_startswith].
  - unfold sample_url, leaf_url. by rewrite !append_assoc.
  - unfold sample_url. rewrite <-append_assoc. by rewrite endswith_sep_app.
Qed.

Lemma components_home (tail : string) :
  Py.components ("users/" +:+ user +:+ String Py.sep tail)
  = "users" :: user :: Py.components tail.
Proof.
  unfold Py.components. simpl.
  rewrite fields_no_sep by by apply is_name_no_sep.
  simpl.
  rewrite !filter_cons. 
  rewrite decide_True by done.
  rewrite decide_True by by apply is_name_nonempty.
  done.
Qed.

Lemma resolve_leaf_url (leaf : string) :
  Py.is_name leaf = true → resolve_url (leaf_url leaf) = Some (sample ++ [leaf]).
Proof.
  intros Hl. unfold resolve_url, leaf_url.
  change (Py.strip_prefix "v3io://" ("v3io://users/" +:+ user +:+ "/examples/stocks/" +:+ leaf))
    with (Some ("users/" +:+ user +:+ String Py.sep ("examples/stocks/" +:+ leaf))).
  cbn [fmap option_fmap option_map]. rewrite components_home. do 3 f_equal.
  unfold Py.components. simpl.
  rewrite fields_name by by apply is_name_no_sep.
  rewrite !filter_cons, !decide_True; [done | by apply is_name_nonempty | done..].
Qed.

Lemma resolve_sample_dir : resolve_fs "/User/examples/stocks" = Some sample.
Proof. reflexivity. Qed.

Lemma resolve_sample_dir_slash : resolve_fs "/User/examples/stocks/" = Some sample.
Proof. reflexivity. Qed.

Lemma resolve_sample_leaf :
  resolve_fs "/User/examples/stocks/stocks_example.csv" = Some (sample ++ ["stocks_example.csv"]).
Proof. reflexivity. Qed.

Ltac run :=
  repeat progress
    (unfold mbind, M_bind, bind, mret, M_ret, ret, raise, expect, log, touch, display,
       enter, get_store, put_store, get_spark, put_spark, py_name, py_module, py_import,
       as_pandas, as_spark, bang, sh_magic, os_path_join, os_path_join_any, os_getenv;
     simpl).

Ltac fin := unfold advance, tagged; simpl; rewrite <-?app_assoc, ?app_nil_r; simpl;
            try reflexivity.

Lemma sh_mkdir_p_ok p q w :
  resolve_fs p = Some q →
  (mkdirs (store w) (prefixes q)).2 = true →
  sh_mkdir_p p w
  = (Ok 0, advance (mkdirs (store w) (prefixes q)).1
             [Call Shell "mkdir" [AStr "-p"; AStr p]]
             [Access (ViaShell "mkdir") MakesDir p] [] w).
Proof.
  intros Hq Hok. unfold sh_mkdir_p. run. rewrite Hq. simpl.
  destruct (mkdirs _ _) as [s' ok]. simpl in *. subst ok.
  unfold advance. simpl. by rewrite !app_nil_r.
Qed.

Lemma sh_curl_L_to_ok url p q doc w :
  resolve_fs p = Some q →
  can_create (store w) q = true →
  remote url = Some doc →
  sh_curl_L_to url p w
  = (Ok 0, advance (<[q := File doc]> (store w))
             [Call Shell "curl" [AStr "-L"; AStr url; AStr ">"; AStr p]]
             [Access (ViaShell "curl") Writes p; Access (ViaShell "curl") Fetches url]
             [] w).
Proof.
  intros Hq Hc Hr. unfold sh_curl_L_to. run. rewrite Hq. simpl. rewrite Hc. simpl.
  rewrite Hr. simpl. unfold advance. simpl. by rewrite <-!app_assoc, !app_nil_r.
Qed.

Lemma pd_read_csv_ok p q hdr body w :
  resolve_fs p = Some q →
  store w !! q = Some (File (hdr :: body)) →
  pd_read_csv p w
  = (Ok (Pdf None (pd_frame (hdr :: body)).1 (pd_frame (hdr :: body)).2),
     advance (store w) [Call Pandas "read_csv" [AStr p]] [Access ViaPandas Reads p] [] w).
Proof.
  intros Hq Hs. unfold pd_read_csv. run. rewrite Hq. simpl. rewrite Hs.
  unfold advance. simpl. rewrite !app_nil_r. by destruct w.
Qed.

Lemma frames_write_ok c table d key w :
  pd_index d = Some key →
  table_or_free (store w) (resolve_table (fc_container c) table) = true →
  frames_write c "nosql" table (PandasDF d) w
  = (Ok tt,
     advance (<[resolve_table (fc_container c) table :=
                  Table key (key :: pd_columns d)
                    (upsert key (items_at (store w) (resolve_table (fc_container c) table))
                       (pd_rows d))]> (store w))
       [Call Frames "Client.write" [AStr "nosql"; AStr table; ARef "df"]]
       [Access (ViaFrames (fc_container c) "nosql") Writes table] [] w).
Proof.
  intros Hk Ht. unfold frames_write. run. rewrite Hk. simpl.
  unfold table_or_free, items_at in *.
  destruct (store w !! _) as [[]|]; try done;
    unfold advance; simpl; by rewrite !app_nil_r.
Qed.

Lemma do_load_ok f p r hr w :
  spark_up w = true →
  scan (store w) f (r_options r) p = Some hr →
  do_load f p r w
  = (Ok (Sdf hr.1 (Scan f (r_options r) p)),
     advance (store w) [] [Access (ViaSpark f) Reads p] [] w).
Proof.
  intros Hup Hs. unfold do_load, need_spark. run. rewrite Hup. simpl. rewrite Hs. simpl.
  unfold advance, ret. simpl. by rewrite !app_nil_r, ?Hup.
Qed.

Lemma df_show_ok d parts w :
  spark_up w = true →
  eval_plan (store w) (sd_plan d) = Some parts →
  df_show d w
  = (Ok tt, advance (store w) [Call Spark "DataFrame.show" []] []
              [Frame (take 20 (concat parts))] w).
Proof.
  intros Hup He. unfold df_show, need_spark. run. rewrite Hup. simpl. rewrite He. simpl.
  unfold advance, ret, display. simpl. by rewrite !app_nil_r, ?Hup.
Qed.

Lemma do_save_kv_append p q wr parts key w :
  spark_up w = true →
  eval_plan (store w) (sd_plan (w_df wr)) = Some parts →
  resolve_url p = Some q →
  w_mode wr = "append" →
  opt_get "key" (w_options wr) = Some key →
  opt_true "allow-overwrite-schema" (w_options wr) = true →
  Py.elem key (sd_schema (w_df wr)) = true →
  table_or_free (store w) q = true →
  do_save kv_format p wr w
  = (Ok tt,
     advance (<[q := Table key (sd_schema (w_df wr))
                       (upsert key (items_at (store w) q) (concat parts))]> (store w))
       [] [Access (ViaSpark kv_format) Writes p] [] w).
Proof.
  intros Hup He Hq Hm Hk Ha Hel Ht. unfold do_save, need_spark, kv_save. run.
  rewrite Hup. simpl. rewrite He. simpl. rewrite Hq. simpl. rewrite Hk. simpl.
  rewrite Hel. simpl. unfold table_or_free, items_at in *.
  destruct (store w !! q) as [[]|]; try done.
  - rewrite Hm. simpl. rewrite Ha.
    rewrite orb_true_r. unfold advance; simpl; by rewrite !app_nil_r, ?Hup.
  - unfold advance. simpl. by rewrite !app_nil_r, ?Hup.
Qed.

Lemma do_save_csv_overwrite p q wr parts w :
  spark_up w = true →
  eval_plan (store w) (sd_plan (w_df wr)) = Some parts →
  resolve_url p = Some q →
  w_mode wr = "overwrite" →
  do_save "csv" p wr w
  = (Ok tt,
     advance (write_parts q ((λ ip : nat * list row, (ip.1, part_doc wr ip.2))
                               <$> written_parts parts)
                (remove_tree q (store w)))
       [] [Access (ViaSpark "csv") Writes p] [] w).
Proof.
  intros Hup He Hq Hm. unfold do_save, need_spark, csv_save. run.
  rewrite Hup. simpl. rewrite He. simpl. rewrite Hq. simpl.
  rewrite Hm. simpl. unfold advance. simpl. by rewrite !app_nil_r, ?Hup.
Qed.

Lemma sh_ls_l_dir p q w :
  resolve_fs p = Some q →
  store w !! q = Some Dir →
  sh_ls_l p w
  = (Ok 0, advance (store w) [Call Shell "ls" [AStr "-l"; AStr p]]
             [Access (ViaShell "ls") Lists p] [Listing (children (store w) q)] w).
Proof.
  intros Hq Hd. unfold sh_ls_l. run. rewrite Hq. simpl. rewrite Hd.
  unfold advance. simpl. done.
Qed.

Lemma mkdirs_ok (qs : list path) : ∀ s,
  forallb (λ q', match s !! q' with None | Some Dir => true | Some _ => false end) qs = true →
  (mkdirs s qs).2 = true.
Proof.
  induction qs as [|q qs IH]; intros s Hs; [done|].
  simpl in Hs. apply andb_prop in Hs as [Hq Hs].
  unfold mkdirs; fold mkdirs.
  destruct (s !! q) as [o|] eqn:E.
  - destruct o; try done. by apply IH.
  - apply IH. apply forallb_forall. intros q' Hin.
    rewrite forallb_forall in Hs. specialize (Hs q' Hin).
    destruct (decide (q = q')) as [->|Hne].
    + by rewrite lookup_insert_eq.
    + by rewrite lookup_insert_ne.
Qed.

Lemma mkdirs_keeps (qs : list path) : ∀ s q o,
  s !! q = Some o → (mkdirs s qs).1 !! q = Some o.
Proof.
  induction qs as [|q' qs IH]; intros s q o Hs; [done|].
  unfold mkdirs; fold mkdirs.
  destruct (s !! q') as [o'|] eqn:E.
  - destruct (is_dirlike o'); [by apply IH | done].
  - apply IH. rewrite lookup_insert_ne; [done | congruence].
Qed.

Lemma mkdirs_fresh (qs : list path) : ∀ s q,
  s !! q = None → q ∉ qs → (mkdirs s qs).1 !! q = None.
Proof.
  induction qs as [|q' qs IH]; intros s q Hs Hq; [done|].
  apply not_elem_of_cons in Hq as [Hne Hq].
  unfold mkdirs; fold mkdirs.
  destruct (s !! q') as [o'|] eqn:E.
  - destruct (is_dirlike o'); [by apply IH | done].
  - apply IH; [|done]. by rewrite lookup_insert_ne.
Qed.

Lemma mkdirs_made (qs : list path) : ∀ s q,
  (mkdirs s qs).2 = true → q ∈ qs →
  ∃ o, (mkdirs s qs).1 !! q = Some o ∧ is_dirlike o = true.
Proof.
  induction qs as [|q' qs IH]; intros s q Hok Hq; [by apply elem_of_nil in Hq|].
  unfold mkdirs in *; fold mkdirs in *.
  destruct (s !! q') as [o'|] eqn:E.
  - destruct (is_dirlike o') eqn:Ed; [|done].
    apply elem_of_cons in Hq as [->|Hq]; [|by apply IH].
    exists o'. split; [by apply mkdirs_keeps | done].
  - apply elem_of_cons in Hq as [->|Hq]; [|by apply IH].
    exists Dir. split; [|done]. apply mkdirs_keeps. by rewrite lookup_insert_eq.
Qed.

Lemma mkdirs_inv (qs : list path) : ∀ s q o,
  (mkdirs s qs).1 !! q = Some o → s !! q = Some o ∨ (o = Dir ∧ q ∈ qs).
Proof.
  induction qs as [|q' qs IH]; intros s q o Hs; [by left|].
  unfold mkdirs in *; fold mkdirs in *.
  destruct (s !! q') as [o'|] eqn:E.
  - destruct (is_dirlike o').
    + apply IH in Hs as [?|[? ?]]; [by left | right; split; [done | by right]].
    + by left.
  - apply IH in Hs as [Hs|[? ?]]; [| right; split; [done | by right]].
    destruct (decide (q' = q)) as [->|Hne].
    + rewrite lookup_insert_eq in Hs. right. split; [congruence | by left].
    + rewrite lookup_insert_ne in Hs by done. by left.
Qed.

Lemma ready_parts s :
  ready s = true →
  dirs_free s sample = true ∧ file_or_free s csv_p = true ∧
  (∃ hdr body, remote stocks_url = Some (hdr :: body) ∧
     Py.elem "ISIN" hdr = true ∧ Py.elem "TradedVolume" hdr = true) ∧
  table_or_free s frames_tab_p = true ∧ table_or_free s spark_tab_p = true.
Proof.
  unfold ready. rewrite !andb_true_iff. intros [[[[? ?] Hd] ?] ?].
  repeat split; try done.
  destruct (remote stocks_url) as [[|hdr body]|]; try done.
  apply andb_prop in Hd as [? ?]. by exists hdr, body.
Qed.

Lemma join_1 : Py.posix_join "examples" ["stocks"] = "examples/stocks".
Proof. reflexivity. Qed.
Lemma join_2 : Py.posix_join "/User" ["examples/stocks"] = "/User/examples/stocks".
Proof. reflexivity. Qed.
Lemma join_3 : Py.posix_join "/User/examples/stocks" ["stocks_example.csv"]
               = "/User/examples/stocks/stocks_example.csv".
Proof. reflexivity. Qed.
Lemma join_4 : Py.posix_join "examples/stocks" ["stocks_example_tab"]
               = "examples/stocks/stocks_example_tab".
Proof. reflexivity. Qed.

Lemma cell_05_ok w :
  cell_05 fresh_kernel w
  = (Ok k05,
     advance (store w)
       [Call PyImport "import" [AStr "pandas"; AStr "pd"];
        Call PyImport "import" [AStr "v3io_frames"; AStr "v3f"];
        Call PyImport "import" [AStr "os"; AStr "os"]] [] [] w).
Proof.
  unfold cell_05. run. fin.
Qed.

Lemma scan_csv_header s p q doc :
  resolve_url p = Some q → s !! q = Some (File doc) →
  scan s "csv" [("header", "true")] p = Some (csv_rows doc).
Proof. intros Hq Hs. unfold scan. rewrite Hq. simpl. by rewrite Hs. Qed.

Lemma scan_kv s p q key sch items :
  resolve_url p = Some q → s !! q = Some (Table key sch items) →
  scan s kv_format [] p = Some (sch, (map_to_list items).*2).
Proof. intros Hq Hs. unfold scan. rewrite Hq. simpl. by rewrite Hs. Qed.

Lemma eval_plan_scan s f o p :
  eval_plan s (Scan f o p) = (λ hr, scan_split hr.2) <$> scan s f o p.
Proof. reflexivity. Qed.

Lemma eval_plan_filter s c src :
  eval_plan s (Filter c src)
  = fmap (M := list) (filter (λ r, holds c r = true)) <$> eval_plan s src.
Proof. reflexivity. Qed.

Lemma eval_plan_coalesce s n src :
  eval_plan s (Coalesce n src) = coalesce_parts n <$> eval_plan s src.
Proof. reflexivity. Qed.

Lemma parse_high_volume : parse_cond "TradedVolume>20000" = Some (Gt "TradedVolume" 20000).
Proof. reflexivity. Qed.

Lemma resolve_column_exact col schema :
  Py.elem col schema = true → resolve_column col schema = Some col.
Proof. intros Hc. unfold resolve_column. by rewrite Hc. Qed.

#[local] Opaque getenv resolve_fs resolve_url Py.posix_join mkdirs scan eval_plan upsert
  write_parts remove_tree children can_create parse_cond resolve_column
  sh_mkdir_p sh_curl_L_to sh_ls_l pd_read_csv frames_write do_load df_show do_save.

Lemma cell_07_ok w :
  cell_07 k05 w
  = (Ok k07,
     advance (store w)
       [Call Frames "Client" [AStr "framesd:8081"; AKw "container" (AStr "users")]]
       [] [] w).
Proof. unfold cell_07, v3f_Client. run. fin. Qed.

Lemma cell_09_ok w :
  cell_09 k07 w
  = (Ok k09,
     advance (store w)
       [Call PyOs "os.path.join" [AStr "examples"; AStr "stocks"];
        Call PyOs "os.path.join" [AStr "/User"; AStr "examples/stocks"];
        Call PyOs "os.getenv" [AStr "V3IO_HOME_URL"];
        Call PyOs "os.path.join" [AStr home_url; AStr "examples/stocks"]]
       [] [] w).
Proof.
  unfold cell_09. run. rewrite join_1. run. rewrite getenv_home_url. run.
  rewrite join_2, join_home_url. fin.
Qed.

Lemma cell_11_ok k w :
  dirs_free (store w) sample = true →
  cell_11 k w
  = (Ok k,
     advance (stage_dirs (store w))
       [Call Shell "mkdir" [AStr "-p"; AStr "/User/examples/stocks"]]
       [Access (ViaShell "mkdir") MakesDir "/User/examples/stocks"] [] w).
Proof.
  intros Hd. unfold cell_11. run.
  rewrite (sh_mkdir_p_ok _ _ _ resolve_sample_dir) by by apply mkdirs_ok.
  fin.
Qed.

Lemma dirs_free_made s q :
  dirs_free s sample = true → q ∈ prefixes sample → stage_dirs s !! q = Some Dir.
Proof.
  intros Hd Hq. unfold stage_dirs.
  destruct (mkdirs_made (prefixes sample) s q) as (o & Ho & _); [by apply mkdirs_ok | done |].
  rewrite Ho. f_equal. apply mkdirs_inv in Ho as [Ho | [? _]]; [|done].
  unfold dirs_free in Hd. rewrite forallb_forall in Hd.
  apply list_elem_of_In, Hd in Hq. rewrite Ho in Hq. by destruct o.
Qed.

Lemma sample_in_prefixes : sample ∈ prefixes sample.
Proof. unfold prefixes, sample. simpl. set_solver. Qed.

Lemma stage_dirs_other s q :
  q ∉ prefixes sample → stage_dirs s !! q = s !! q.
Proof.
  intros Hq. unfold stage_dirs. destruct (s !! q) as [o|] eqn:E.
  - by apply mkdirs_keeps.
  - by apply mkdirs_fresh.
Qed.

Lemma cell_14_ok k doc w :
  can_create (store w) csv_p = true →
  remote stocks_url = Some doc →
  cell_14 k w
  = (Ok k,
     advance (stage_csv doc (store w))
       [Call Shell "curl" [AStr "-L"; AStr stocks_url; AStr ">";
                           AStr "/User/examples/stocks/stocks_example.csv"]]
       [Access (ViaShell "curl") Writes "/User/examples/stocks/stocks_example.csv";
        Access (ViaShell "curl") Fetches stocks_url] [] w).
Proof.
  intros Hc Hr. unfold cell_14. run.
  rewrite (sh_curl_L_to_ok _ _ _ doc _ resolve_sample_leaf) by done.
  fin.
Qed.

Lemma cell_17_ok hdr body w :
  store w !! csv_p = Some (File (hdr :: body)) →
  Py.elem "ISIN" hdr = true →
  cell_17 k09 w
  = (Ok (k17 hdr body),
     advance (store w)
       [Call PyOs "os.path.join" [AStr "/User/examples/stocks"; AStr "stocks_example.csv"];
        Call Pandas "read_csv" [AStr "/User/examples/stocks/stocks_example.csv"];
        Call Pandas "DataFrame.set_index" [AStr "ISIN"; AKw "inplace" (ARef "True")];
        Call Pandas "DataFrame.head" []]
       [Access ViaPandas Reads "/User/examples/stocks/stocks_example.csv"]
       [Frame (take 5 (pd_frame (hdr :: body)).2)] w).
Proof.
  intros Hs Hi. unfold cell_17. run. rewrite join_3.
  rewrite (pd_read_csv_ok _ _ hdr body _ resolve_sample_leaf) by done.
  unfold pdf_set_index, pdf_head. run. rewrite Hi. run. fin.
Qed.

Lemma cell_20_ok hdr body w :
  table_or_free (store w) frames_tab_p = true →
  cell_20 (k17 hdr body) w
  = (Ok (k20 hdr body),
     advance (stage_frames (hdr :: body) (store w))
       [Call PyOs "os.path.join" [AStr "examples/stocks"; AStr "stocks_example_tab"];
        Call Frames "Client.write"
          [AStr "nosql"; AStr "examples/stocks/stocks_example_tab"; ARef "df"]]
       [Access (ViaFrames "users" "nosql") Writes "examples/stocks/stocks_example_tab"] [] w).
Proof.
  intros Ht. unfold cell_20. run. rewrite join_4.
  rewrite (frames_write_ok _ _ (pandas_df hdr body) "ISIN") by done.
  fin.
Qed.

Ltac spark_ops :=
  unfold SparkSession_getOrCreate, spark_read, reader_option, reader_format, reader_csv,
    reader_load, df_where, df_coalesce, df_write, writer_format, writer_mode,
    writer_option, writer_save, writer_csv, spark_stop.

Lemma cell_25_ok hdr body w :
  store w !! csv_p = Some (File (hdr :: body)) →
  cell_25 (k20 hdr body) w
  = (Ok (k25 hdr body),
     World (store w) true (cur w)
       (calls w ++ tagged w
          [Call PyImport "import" [AStr "pyspark.sql"; AStr "SparkSession"];
           Call Spark "SparkSession.builder.appName" [AStr app_title];
           Call Spark "getOrCreate" [];
           Call Spark "SparkSession.read" [];
           Call Spark "DataFrameReader.option" [AStr "header"; AStr "true"];
           Call PyOs "os.path.join" [AStr sample_url; AStr "stocks_example.csv"];
           Call Spark "DataFrameReader.csv" [AStr (leaf_url "stocks_example.csv")];
           Call Spark "DataFrame.show" []])
       (accesses w ++ tagged w
          [Access (ViaSpark "csv") Reads (leaf_url "stocks_example.csv")])
       (outputs w ++ tagged w
          [Frame (take 20 (concat (scan_split (csv_rows (hdr :: body)).2)))])).
Proof.
  intros Hs. unfold cell_25. spark_ops. run.
  rewrite (join_sample_url "stocks_example.csv") by done.
  erewrite do_load_ok; [| done | by eapply scan_csv_header; [by apply resolve_leaf_url|]].
  run.
  erewrite df_show_ok;
    [| done | simpl; rewrite eval_plan_scan;
              by erewrite scan_csv_header; [| by apply resolve_leaf_url |]].
  fin.
Qed.

Lemma cell_26_ok hdr body w :
  spark_up w = true →
  store w !! csv_p = Some (File (hdr :: body)) →
  Py.elem "ISIN" hdr = true →
  table_or_free (store w) spark_tab_p = true →
  cell_26 (k25 hdr body) w
  = (Ok (k25 hdr body),
     advance (stage_spark (hdr :: body) (store w))
       [Call Spark "DataFrame.write" [];
        Call Spark "DataFrameWriter.format" [AStr "io.iguaz.v3io.spark.sql.kv"];
        Call Spark "DataFrameWriter.mode" [AStr "append"];
        Call Spark "DataFrameWriter.option" [AStr "key"; AStr "ISIN"];
        Call Spark "DataFrameWriter.option" [AStr "allow-overwrite-schema"; AStr "true"];
        Call PyOs "os.path.join" [AStr sample_url; AStr "stocks_tab_spark"];
        Call Spark "DataFrameWriter.save" [AStr (leaf_url "stocks_tab_spark")]]
       [Access (ViaSpark kv_format) Writes (leaf_url "stocks_tab_spark")] [] w).
Proof.
  intros Hup Hs Hi Ht. unfold cell_26. spark_ops. run.
  rewrite (join_sample_url "stocks_tab_spark") by done.
  erewrite (do_save_kv_append _ spark_tab_p _ _ "ISIN");
    [ | done
      | simpl; rewrite eval_plan_scan;
        by erewrite scan_csv_header; [| by apply resolve_leaf_url |]
      | by apply resolve_leaf_url | done | done | done | done | done ].
  fin.
Qed.

Lemma cell_29_ok hdr body key items w :
  spark_up w = true →
  store w !! spark_tab_p = Some (Table key hdr items) →
  Py.elem "TradedVolume" hdr = true →
  cell_29 (k25 hdr body) w
  = (Ok (k29 hdr body),
     advance (store w)
       [Call Spark "SparkSession.read" [];
        Call Spark "DataFrameReader.format" [AStr "io.iguaz.v3io.spark.sql.kv"];
        Call PyOs "os.path.join" [AStr sample_url; AStr "stocks_tab_spark"];
        Call Spark "DataFrameReader.load" [AStr (leaf_url "stocks_tab_spark")];
        Call Spark "DataFrame.where" [AStr "TradedVolume>20000"]]
       [Access (ViaSpark kv_format) Reads (leaf_url "stocks_tab_spark")] [] w).
Proof.
  intros Hup Hs Hv. unfold cell_29. spark_ops. run.
  rewrite (join_sample_url "stocks_tab_spark") by done.
  erewrite do_load_ok; [| done | by eapply scan_kv; [by apply resolve_leaf_url|]].
  run. rewrite parse_high_volume. run. rewrite (resolve_column_exact _ _ Hv). fin.
Qed.

Lemma cell_30_ok hdr body key items w :
  spark_up w = true →
  store w !! spark_tab_p = Some (Table key hdr items) →
  cell_30 (k29 hdr body) w
  = (Ok (k29 hdr body),
     advance (stage_out (store w))
       [Call Spark "DataFrame.coalesce" [AInt 1];
        Call Spark "DataFrame.write" [];
        Call Spark "DataFrameWriter.mode" [AStr "overwrite"];
        Call PyOs "os.path.join" [AStr sample_url; AStr "stocks_high_volume.csv"];
        Call Spark "DataFrameWriter.csv" [AStr (leaf_url "stocks_high_volume.csv")]]
       [Access (ViaSpark "csv") Writes (leaf_url "stocks_high_volume.csv")] [] w).
Proof.
  intros Hup Hs. unfold cell_30. spark_ops. run.
  rewrite (join_sample_url "stocks_high_volume.csv") by done.
  erewrite (do_save_csv_overwrite _ out_p);
    [ | done
      | simpl; rewrite eval_plan_coalesce, eval_plan_filter, eval_plan_scan;
        by erewrite scan_kv; [| by apply resolve_leaf_url |]
      | by apply resolve_leaf_url | done ].
  unfold stage_out, selected, items_at. rewrite Hs. fin.
Qed.

Lemma cell_33_ok k w :
  store w !! sample = Some Dir →
  cell_33 k w
  = (Ok k,
     advance (store w) [Call Shell "ls" [AStr "-l"; AStr "/User/examples/stocks/"]]
       [Access (ViaShell "ls") Lists "/User/examples/stocks/"]
       [Listing (children (store w) sample)] w).
Proof.
  intros Hs. unfold cell_33. run.
  rewrite (sh_ls_l_dir _ _ _ resolve_sample_dir_slash) by done.
  fin.
Qed.

Lemma cell_38_ok k w : cell_38 k w = (Ok k, w).
Proof. reflexivity. Qed.

Lemma cell_41_ok k ss w :
  spark k = Some ss →
  cell_41 k w
  = (Ok k, World (store w) false (cur w)
             (calls w ++ [(cur w, Call Spark "SparkSession.stop" [])])
             (accesses w) (outputs w)).
Proof. intros Hk. unfold cell_41. spark_ops. rewrite Hk. run. fin. Qed.

#[local] Transparent write_parts remove_tree can_create.

Lemma remove_tree_other (q : path) s (p : path) :
  ¬ q `prefix_of` p → remove_tree q s !! p = s !! p.
Proof.
  intros Hp. unfold remove_tree. destruct (s !! p) as [x|] eqn:E.
  - by apply map_lookup_filter_Some_2.
  - apply map_lookup_filter_None_2. by left.
Qed.

Lemma remove_tree_inv (q : path) s (p : path) o :
  remove_tree q s !! p = Some o → s !! p = Some o ∧ ¬ q `prefix_of` p.
Proof. unfold remove_tree. by intros ?%map_lookup_filter_Some. Qed.

Lemma remove_tree_below (q : path) s (p : path) :
  q `prefix_of` p → remove_tree q s !! p = None.
Proof.
  intros Hp. unfold remove_tree. apply map_lookup_filter_None_2.
  right. intros x _ Hn. by apply Hn.
Qed.

Lemma coalesce_one (parts : list (list row)) :
  (parts = [] ∧ coalesce_parts 1 parts = []) ∨ coalesce_parts 1 parts = [concat parts].
Proof.
  unfold coalesce_parts. destruct parts as [|x [|y parts]]; simpl.
  - by left.
  - right. by rewrite app_nil_r.
  - right. done.
Qed.


Lemma written_one (part : list row) : written_parts [part] = [(0, part)].
Proof. reflexivity. Qed.

Lemma written_none : written_parts [] = [(0, [])].
Proof. reflexivity. Qed.

Lemma stage_out_eq s :
  stage_out s
  = <[part_p := File (row_values <$> selected_rows s)]>
      (<[success_p := File []]> (<[out_p := Dir]> (remove_tree out_p s))).
Proof.
  unfold stage_out, selected, selected_rows.
  destruct (coalesce_one (filter high_volume <$>
              scan_split (map_to_list (items_at s spark_tab_p)).*2)) as [[-> ->]| ->].
  - by rewrite written_none.
  - by rewrite written_one.
Qed.

#[local] Opaque write_parts remove_tree.

Lemma run_cells_cons i c cs k w k' w' :
  c k (World (store w) (spark_up w) i (calls w) (accesses w) (outputs w)) = (Ok k', w') →
  run_cells ((i, c) :: cs) k w = run_cells cs k' w'.
Proof. intros Hc. simpl. unfold mbind, M_bind, bind, enter. simpl. by rewrite Hc. Qed.

Ltac path_ne := by (intros [=]).
Ltac not_below := by (intros [? [=]]).
Ltac not_prefix :=
  change (prefixes sample)
    with [["users"]; ["users"; user]; ["users"; user; "examples"]; sample];
  rewrite !not_elem_of_cons; repeat split; try path_ne; apply not_elem_of_nil.

Lemma csv_p_fresh : csv_p ∉ prefixes sample.
Proof. not_prefix. Qed.
Lemma frames_tab_p_fresh : frames_tab_p ∉ prefixes sample.
Proof. not_prefix. Qed.
Lemma spark_tab_p_fresh : spark_tab_p ∉ prefixes sample.
Proof. not_prefix. Qed.

Lemma can_create_csv s :
  dirs_free s sample = true → file_or_free s csv_p = true →
  can_create (stage_dirs s) csv_p = true.
Proof.
  intros Hd Hf. unfold can_create.
  change (parent csv_p) with sample.
  rewrite (dirs_free_made s sample Hd sample_in_prefixes). simpl.
  rewrite stage_dirs_other by apply csv_p_fresh.
  unfold file_or_free in Hf. by destruct (s !! csv_p) as [[]|].
Qed.

Lemma stage_out_other s (q : path) :
  ¬ out_p `prefix_of` q → stage_out s !! q = s !! q.
Proof.
  intros Hq. rewrite stage_out_eq.
  rewrite lookup_insert_ne.
  2: { intros E. apply Hq. rewrite <-E. by apply prefix_app_r. }
  rewrite lookup_insert_ne.
  2: { intros E. apply Hq. rewrite <-E. by apply prefix_app_r. }
  rewrite lookup_insert_ne.
  2: { intros E. apply Hq. by rewrite <-E. }
  by apply remove_tree_other.
Qed.

Lemma part_not_marker : part_p ≠ success_p.
Proof. unfold part_p, success_p. intros E%app_inv_head. by injection E. Qed.

Lemma out_not_part : part_p ≠ out_p.
Proof. unfold part_p. intros E. apply (f_equal length) in E. rewrite length_app in E. simpl in E. lia. Qed.

Lemma out_not_marker : success_p ≠ out_p.
Proof. unfold success_p. intros E. apply (f_equal length) in E. rewrite length_app in E. simpl in E. lia. Qed.

Lemma final_sample_dir doc s :
  dirs_free s sample = true → final_store doc s !! sample = Some Dir.
Proof.
  intros Hd. unfold final_store. rewrite stage_out_other by not_below.
  unfold stage_spark, stage_frames, stage_csv.
  rewrite !lookup_insert_ne by path_ne.
  apply dirs_free_made; [done | apply sample_in_prefixes].
Qed.

Ltac tidy :=
  lazymatch goal with
  | |- context [run_cells _ _ ?w] =>
      let w1 := eval unfold advance, tagged in w in
      let w' := eval cbn [store spark_up cur calls accesses outputs
                          fmap list_fmap app] in w1 in
      change w with w'
  end.

Lemma run_file_access_parts s hdr body :
  remote stocks_url = Some (hdr :: body) →
  Py.elem "ISIN" hdr = true → Py.elem "TradedVolume" hdr = true →
  dirs_free s sample = true → file_or_free s csv_p = true →
  table_or_free s frames_tab_p = true → table_or_free s spark_tab_p = true →
  run_all file_access s = (Ok (k29 hdr body), final_world (hdr :: body) s).
Proof.
  intros Hdoc Hisin Hvol Hdirs Hcsv Hft Hst.
  unfold run_all, file_access, boot.
  erewrite run_cells_cons by apply cell_05_ok. tidy.
  erewrite run_cells_cons by apply cell_07_ok. tidy.
  erewrite run_cells_cons by apply cell_09_ok. tidy.
  erewrite run_cells_cons by (apply cell_11_ok; exact Hdirs). tidy.
  erewrite run_cells_cons by (apply cell_14_ok; [by apply can_create_csv | exact Hdoc]). tidy.
  erewrite run_cells_cons
    by (apply cell_17_ok; [by apply lookup_insert_eq | exact Hisin]). tidy.
  erewrite run_cells_cons.
  2: { apply cell_20_ok. simpl. unfold table_or_free, stage_csv.
       rewrite lookup_insert_ne by path_ne.
       rewrite stage_dirs_other by apply frames_tab_p_fresh. exact Hft. }
  tidy.
  erewrite run_cells_cons.
  2: { apply cell_25_ok. simpl. unfold stage_frames, stage_csv.
       rewrite lookup_insert_ne by path_ne. by apply lookup_insert_eq. }
  tidy.
  erewrite run_cells_cons.
  2: { apply cell_26_ok; simpl; [done | | exact Hisin |].
       - unfold stage_frames, stage_csv.
         rewrite lookup_insert_ne by path_ne. by apply lookup_insert_eq.
       - unfold table_or_free, stage_frames, stage_csv.
         rewrite !lookup_insert_ne by path_ne.
         rewrite stage_dirs_other by apply spark_tab_p_fresh. exact Hst. }
  tidy.
  erewrite run_cells_cons.
  2: { eapply cell_29_ok; simpl; [done | | exact Hvol].
       unfold stage_spark. by apply lookup_insert_eq. }
  tidy.
  erewrite run_cells_cons.
  2: { eapply cell_30_ok; simpl; [done |].
       unfold stage_spark. by apply lookup_insert_eq. }
  tidy.
  erewrite run_cells_cons
    by (apply cell_33_ok; simpl; by apply (final_sample_dir (hdr :: body))).
  tidy.
  erewrite run_cells_cons by apply cell_38_ok. tidy.
  erewrite run_cells_cons by (by eapply cell_41_ok). tidy.
  reflexivity.
Qed.

Lemma final_csv doc s : final_store doc s !! csv_p = Some (File doc).
Proof.
  unfold final_store. rewrite stage_out_other by not_below.
  unfold stage_spark, stage_frames, stage_csv.
  rewrite !lookup_insert_ne by path_ne. by apply lookup_insert_eq.
Qed.

Lemma final_frames_tab doc s :
  final_store doc s !! frames_tab_p
  = Some (Table "ISIN" ("ISIN" :: filter (λ c, c ≠ "ISIN") (pd_frame doc).1)
            (upsert "ISIN" (items_at s frames_tab_p) (pd_frame doc).2)).
Proof.
  unfold final_store. rewrite stage_out_other by not_below.
  unfold stage_spark. rewrite lookup_insert_ne by path_ne.
  unfold stage_frames. rewrite lookup_insert_eq. do 3 f_equal.
  unfold items_at, stage_csv. rewrite lookup_insert_ne by path_ne.
  by rewrite stage_dirs_other by apply frames_tab_p_fresh.
Qed.

Lemma final_spark_tab doc s :
  final_store doc s !! spark_tab_p
  = Some (Table "ISIN" (csv_rows doc).1
            (upsert "ISIN" (items_at s spark_tab_p)
               (concat (scan_split (csv_rows doc).2)))).
Proof.
  unfold final_store. rewrite stage_out_other by not_below.
  unfold stage_spark. rewrite lookup_insert_eq. do 3 f_equal.
  unfold items_at, stage_frames, stage_csv. rewrite !lookup_insert_ne by path_ne.
  by rewrite stage_dirs_other by apply spark_tab_p_fresh.
Qed.

Lemma final_out_dir doc s : final_store doc s !! out_p = Some Dir.
Proof.
  unfold final_store. rewrite stage_out_eq.
  rewrite lookup_insert_ne by apply out_not_part.
  rewrite lookup_insert_ne by apply out_not_marker.
  by apply lookup_insert_eq.
Qed.

Lemma final_marker doc s : final_store doc s !! success_p = Some (File []).
Proof.
  unfold final_store. rewrite stage_out_eq.
  rewrite lookup_insert_ne by apply part_not_marker.
  by apply lookup_insert_eq.
Qed.

Lemma final_part doc s :
  final_store doc s !! part_p
  = Some (File (row_values <$>
            selected_rows (stage_spark doc (stage_frames doc (stage_csv doc (stage_dirs s)))))).
Proof. unfold final_store. rewrite stage_out_eq. by apply lookup_insert_eq. Qed.

Lemma final_below_out doc s (q : path) o :
  final_store doc s !! q = Some o → out_p `prefix_of` q →
  q = out_p ∨ q = success_p ∨ q = part_p.
Proof.
  unfold final_store. rewrite stage_out_eq. intros Hq Hp.
  destruct (decide (part_p = q)) as [<-|Hn1]; [by right; right|].
  destruct (decide (success_p = q)) as [<-|Hn3]; [by right; left|].
  destruct (decide (out_p = q)) as [<-|Hn2]; [by left|].
  rewrite !lookup_insert_ne in Hq by done.
  by rewrite remove_tree_below in Hq.
Qed.


Lemma final_dirs doc s :
  dirs_free s sample = true → dirs_free (final_store doc s) sample = true.
Proof.
  intros Hd. unfold dirs_free. apply forallb_forall. intros q Hq%list_elem_of_In.
  assert (final_store doc s !! q = Some Dir) as ->; [|done].
  unfold final_store. rewrite stage_out_other.
  2: { revert Hq.
       change (prefixes sample)
         with [["users"]; ["users"; user]; ["users"; user; "examples"]; sample].
       rewrite !elem_of_cons, elem_of_nil. intros [->|[->|[->|[->|[]]]]]; not_below. }
  unfold stage_spark, stage_frames, stage_csv.
  assert (q ≠ csv_p ∧ q ≠ frames_tab_p ∧ q ≠ spark_tab_p) as (? & ? & ?).
  { repeat split; intros ->.
    - by apply csv_p_fresh. - by apply frames_tab_p_fresh. - by apply spark_tab_p_fresh. }
  rewrite !lookup_insert_ne by done.
  by apply dirs_free_made.
Qed.

Lemma ready_final s : ready s = true → ready (final_store ingested s) = true.
Proof.
  intros Hr. pose proof Hr as (Hd & _ & _ & _ & _)%ready_parts.
  unfold ready in *. rewrite !andb_true_iff in *.
  destruct Hr as [[[[_ _] Hdoc] _] _].
  repeat split.
  - by apply final_dirs.
  - unfold file_or_free. by rewrite final_csv.
  - done.
  - unfold table_or_free. by rewrite final_frames_tab.
  - unfold table_or_free. by rewrite final_spark_tab.
Qed.

(** Run All completes whenever the store is ready. *)
Lemma run_file_access s :
  ready s = true →
  ∃ k, run_all file_access s = (Ok k, final_world ingested s).
Proof.
  intros (Hdirs & Hcsv & (hdr & body & Hdoc & Hisin & Hvol) & Hft & Hst)%ready_parts.
  exists (k29 hdr body). unfold ingested. rewrite Hdoc. simpl.
  by apply run_file_access_parts.
Qed.

Lemma after_run_eq s : ready s = true → after_run s = final_world ingested s.
Proof. intros [k Hk]%run_file_access. unfold after_run. by rewrite Hk. Qed.

Lemma conversion_transcript doc s :
  conversion_calls (final_world doc s)
  = [ Call Spark "DataFrame.write" [];
      Call Spark "DataFrameWriter.format" [AStr "io.iguaz.v3io.spark.sql.kv"];
      Call Spark "DataFrameWriter.mode" [AStr "append"];
      Call Spark "DataFrameWriter.option" [AStr "key"; AStr "ISIN"];
      Call Spark "DataFrameWriter.option" [AStr "allow-overwrite-schema"; AStr "true"];
      Call PyOs "os.path.join" [AStr sample_url; AStr "stocks_tab_spark"];
      Call Spark "DataFrameWriter.save" [AStr (leaf_url "stocks_tab_spark")];
      Call Spark "SparkSession.read" [];
      Call Spark "DataFrameReader.format" [AStr "io.iguaz.v3io.spark.sql.kv"];
      Call PyOs "os.path.join" [AStr sample_url; AStr "stocks_tab_spark"];
      Call Spark "DataFrameReader.load" [AStr (leaf_url "stocks_tab_spark")];
      where_call;
      coalesce_call;
      Call Spark "DataFrame.write" [];
      Call Spark "DataFrameWriter.mode" [AStr "overwrite"];
      Call PyOs "os.path.join" [AStr sample_url; AStr "stocks_high_volume.csv"];
      Call Spark "DataFrameWriter.csv" [AStr (leaf_url "stocks_high_volume.csv")] ].
Proof. vm_compute. reflexivity. Qed.

(** C1 (amended): in the cells that convert CSV data to a NoSQL table and
    NoSQL data back to a CSV file, every call carries configuration only (reader
    or writer accessor, format string, save mode, key or flag option, path), except
    the row selection [where("TradedVolume>20000")] and the repartitioning
    [coalesce(1)], both of which the notebook does supply. *)
Theorem C1_conversion_calls s :
  ready s = true →
  (∀ c, c ∈ conversion_calls (after_run s) →
        is_config c = true ∨ c = where_call ∨ c = coalesce_call)
  ∧ where_call ∈ conversion_calls (after_run s)
  ∧ coalesce_call ∈ conversion_calls (after_run s).
Proof.
  intros Hr. rewrite after_run_eq, conversion_transcript by done.
  split; [|split; set_solver].
  intros c Hc. repeat (apply elem_of_cons in Hc as [->|Hc]; [auto|]).
  by apply elem_of_nil in Hc.
Qed.

#[local] Transparent sh_curl_L_to resolve_fs.

Lemma readme_transcript s : calls (after_readme s) = [(52, readme_curl)].
Proof.
  unfold after_readme, run_all, readme, run_cells, readme_cell_52, sh_curl_L_to, boot.
  destruct (Pos2Nat.is_succ (curl_failure stocks_url).1) as [n1 E1].
  destruct (Pos2Nat.is_succ redirect_status) as [n2 E2].
  run. destruct (can_create _ _); run; [destruct (remote _); run|];
    rewrite ?E1, ?E2; run; reflexivity.
Qed.

Lemma readme_requests s ia :
  ia ∈ accesses (after_readme s) →
  ia = (52, Access (ViaShell "curl") Writes "/User/examples/stocks.csv")
  ∨ ia = (52, Access (ViaShell "curl") Fetches stocks_url).
Proof.
  unfold after_readme, run_all, readme, run_cells, readme_cell_52, sh_curl_L_to, boot.
  destruct (Pos2Nat.is_succ (curl_failure stocks_url).1) as [n1 E1].
  destruct (Pos2Nat.is_succ redirect_status) as [n2 E2].
  run. destruct (can_create _ _); run; [destruct (remote _); run|];
    rewrite ?E1, ?E2; run;
    intros Hi; repeat (apply elem_of_cons in Hi as [->|Hi]; [auto|]);
    by apply elem_of_nil in Hi.
Qed.

#[local] Opaque sh_curl_L_to resolve_fs.

(** C4 (amended): every call made by a code cell of the two notebooks goes
    into pandas, Spark or the Frames client, or is one of the shell commands
    curl, mkdir, ls, or else is Python glue of the notebook's own: an import, or a
    call of os.path.join or os.getenv from the standard os module. *)
Theorem C4_cell_calls s s' :
  ready s = true →
  ∀ ic, ic ∈ calls (after_run s) ++ calls (after_readme s') →
        used_sdk_or_shell ic.2 = true ∨ python_glue ic.2 = true.
Proof.
  intros Hr ic. rewrite after_run_eq, readme_transcript by done.
  simpl. unfold transcript. intros Hc.
  repeat (apply elem_of_cons in Hc as [->|Hc]; [by (left + right)|]).
  by apply elem_of_nil in Hc.
Qed.


Lemma touches_none s a : locate a = None → touches_table s a = false.
Proof. intros Hl. unfold touches_table, reaches. by rewrite Hl. Qed.


(** C5 (amended): the example invocations of the two notebooks move data
    from an external object store into the file system, into NoSQL tables and
    into CSV files; no access of either notebook reads or writes a Parquet or
    Hive table. *)
Theorem C5_stores s s' :
  ready s = true →
  some_access ObjectStore (accesses (after_run s)) = true
  ∧ some_access FileSystem (accesses (after_run s)) = true
  ∧ some_access NoSQLTable (accesses (after_run s)) = true
  ∧ some_access CsvFile (accesses (after_run s)) = true
  ∧ ∀ ia, ia ∈ accesses (after_run s) ++ accesses (after_readme s') →
          concerns ParquetHive ia.2 = false.
Proof.
  intros Hr. rewrite after_run_eq by done. unfold final_world. cbn [accesses].
  repeat split; try reflexivity.
  intros ia [Hi|Hi]%elem_of_app.
  - unfold requests in Hi.
    repeat (apply elem_of_cons in Hi as [->|Hi]; [reflexivity|]).
    by apply elem_of_nil in Hi.
  - by apply readme_requests in Hi as [->| ->].
Qed.




Lemma cell_30_transcript doc s :
  cell_calls 30 (final_world doc s)
  = [ coalesce_call;
      Call Spark "DataFrame.write" [];
      Call Spark "DataFrameWriter.mode" [AStr "overwrite"];
      Call PyOs "os.path.join" [AStr sample_url; AStr "stocks_high_volume.csv"];
      Call Spark "DataFrameWriter.csv" [AStr (leaf_url "stocks_high_volume.csv")] ].
Proof. vm_compute. reflexivity. Qed.

(** C2 (amended): the write of the NoSQL-derived DataFrame calls
    coalesce(1) before write.csv, and after a complete run the target path is a
    directory; it holds one data file, named after the partition and the write
    job, and the marker _SUCCESS of the committed job, and nothing else lies
    below it. *)
Theorem C2_one_part_file s :
  ready s = true →
  cell_calls 30 (after_run s)
  = [ coalesce_call;
      Call Spark "DataFrame.write" [];
      Call Spark "DataFrameWriter.mode" [AStr "overwrite"];
      Call PyOs "os.path.join" [AStr sample_url; AStr "stocks_high_volume.csv"];
      Call Spark "DataFrameWriter.csv" [AStr (leaf_url "stocks_high_volume.csv")] ]
  ∧ resolve_url (leaf_url "stocks_high_volume.csv") = Some out_p
  ∧ store (after_run s) !! out_p = Some Dir
  ∧ store (after_run s) !! success_p = Some (File [])
  ∧ (∃ doc, store (after_run s) !! part_p = Some (File doc))
  ∧ part_p ≠ success_p
  ∧ ∀ (q : path) o, store (after_run s) !! q = Some o → out_p `prefix_of` q →
                     q = out_p ∨ q = success_p ∨ q = part_p.
Proof.
  intros Hr. rewrite after_run_eq by done.
  split; [apply cell_30_transcript|].
  split; [by apply (resolve_leaf_url "stocks_high_volume.csv")|].
  unfold final_world. cbn [store].
  split; [apply final_out_dir|].
  split; [apply final_marker|].
  split; [eexists; apply final_part|].
  split; [apply part_not_marker|].
  apply final_below_out.
Qed.

(** *** The cast of a plain numeral *)










(** *** Shell commands that fail *)

Lemma run_cells_raise i (c : cell) cs k w e w' :
  c k (World (store w) (spark_up w) i (calls w) (accesses w) (outputs w)) = (Raise e, w') →
  run_cells ((i, c) :: cs) k w = (Raise e, w').
Proof. intros Hc. simpl. unfold mbind, M_bind, bind, enter. simpl. by rewrite Hc. Qed.

(** A [%%sh] cell whose script exits with a status that is not 0 raises
    CalledProcessError with that status. *)
Lemma sh_magic_fail (script : M nat) (p : positive) w w' :
  script w = (Ok (Pos.to_nat p), w') →
  sh_magic script w = (Raise (CalledProcessError (Pos.to_nat p)), w').
Proof.
  intros Hs. unfold sh_magic, mbind, M_bind, bind. rewrite Hs.
  by destruct (Pos2Nat.is_succ p) as [n ->].
Qed.

#[local] Transparent sh_curl_L_to sh_mkdir_p mkdirs.

Lemma sh_curl_L_to_offline url p q w :
  resolve_fs p = Some q →
  can_create (store w) q = true →
  remote url = None →
  sh_curl_L_to url p w
  = (Ok (Pos.to_nat (curl_failure url).1),
     advance (<[q := File (curl_failure url).2]> (store w))
       [Call Shell "curl" [AStr "-L"; AStr url; AStr ">"; AStr p]]
       [Access (ViaShell "curl") Writes p; Access (ViaShell "curl") Fetches url]
       [] w).
Proof.
  intros Hq Hc Hr. unfold sh_curl_L_to. run. rewrite Hq. simpl. rewrite Hc. simpl.
  rewrite Hr. simpl. unfold advance. simpl. by rewrite <-!app_assoc, !app_nil_r.
Qed.

Lemma sh_curl_L_to_denied url p q w :
  resolve_fs p = Some q →
  can_create (store w) q = false →
  sh_curl_L_to url p w
  = (Ok (Pos.to_nat redirect_status),
     advance (store w)
       [Call Shell "curl" [AStr "-L"; AStr url; AStr ">"; AStr p]]
       [Access (ViaShell "curl") Writes p] [] w).
Proof.
  intros Hq Hc. unfold sh_curl_L_to. run. rewrite Hq. simpl. rewrite Hc. simpl.
  unfold advance. simpl. by rewrite !app_nil_r.
Qed.

Lemma sh_mkdir_p_status p q w :
  resolve_fs p = Some q →
  sh_mkdir_p p w
  = (Ok (if (mkdirs (store w) (prefixes q)).2 then 0 else 1),
     advance (mkdirs (store w) (prefixes q)).1
       [Call Shell "mkdir" [AStr "-p"; AStr p]]
       [Access (ViaShell "mkdir") MakesDir p] [] w).
Proof.
  intros Hq. unfold sh_mkdir_p. run. rewrite Hq. simpl.
  destruct (mkdirs _ _) as [s' ok]. simpl.
  unfold advance. simpl. by rewrite !app_nil_r.
Qed.

(** Where [mkdir -p] fails it has not made the last directory. *)
Lemma mkdirs_fail_last (qs : list path) (q : path) : ∀ s,
  q ∉ qs → (mkdirs s (qs ++ [q])).2 = false → (mkdirs s (qs ++ [q])).1 !! q = s !! q.
Proof.
  induction qs as [|q0 qs IH]; intros s Hq Hf.
  - change (mkdirs s ([] ++ [q]))
      with (match s !! q with
            | None => (<[q := Dir]> s, true)
            | Some o => if is_dirlike o then (s, true) else (s, false)
            end) in *.
    destruct (s !! q) as [o|] eqn:E; [|done].
    destruct (is_dirlike o); [done|exact E].
  - change (mkdirs s ((q0 :: qs) ++ [q]))
      with (match s !! q0 with
            | None => mkdirs (<[q0 := Dir]> s) (qs ++ [q])
            | Some o => if is_dirlike o then mkdirs s (qs ++ [q]) else (s, false)
            end) in *.
    apply not_elem_of_cons in Hq as [Hne Hq].
    destruct (s !! q0) as [o|] eqn:E.
    + destruct (is_dirlike o); [by apply IH|done].
    + rewrite IH by done. by apply lookup_insert_ne.
Qed.

Lemma file_at_insert (qs : list path) (q : path) s :
  q ∉ qs → existsb (file_at (<[q := Dir]> s)) qs = existsb (file_at s) qs.
Proof.
  induction qs as [|q' qs IH]; intros Hq; [done|].
  apply not_elem_of_cons in Hq as [Hne Hq]. cbn [existsb].
  rewrite IH by done. f_equal. unfold file_at. by rewrite lookup_insert_ne.
Qed.

(** [mkdir -p] fails exactly when a regular file lies on the path. *)
Lemma mkdirs_blocked (qs : list path) : ∀ s,
  NoDup qs → (mkdirs s qs).2 = negb (existsb (file_at s) qs).
Proof.
  induction qs as [|q qs IH]; intros s Hn; [done|].
  apply NoDup_cons in Hn as [Hq Hn].
  change (mkdirs s (q :: qs))
    with (match s !! q with
          | None => mkdirs (<[q := Dir]> s) qs
          | Some o => if is_dirlike o then mkdirs s qs else (s, false)
          end).
  cbn [existsb]. unfold file_at at 1.
  destruct (s !! q) as [[doc| |key schema items]|] eqn:E; cbn [is_dirlike].
  - done.
  - by rewrite IH.
  - by rewrite IH.
  - rewrite IH by done. by rewrite file_at_insert.
Qed.

Lemma prefixes_NoDup : NoDup (prefixes sample).
Proof.
  change (prefixes sample)
    with [["users"]; ["users"; user]; ["users"; user; "examples"]; sample].
  rewrite !NoDup_cons, !not_elem_of_cons.
  repeat split; try path_ne; try apply not_elem_of_nil. apply NoDup_nil_2.
Qed.

Lemma mkdirs_sample s : (mkdirs s (prefixes sample)).2 = negb (in_the_way s).
Proof. apply mkdirs_blocked, prefixes_NoDup. Qed.

Lemma dirs_free_clear s : dirs_free s sample = true → in_the_way s = false.
Proof.
  unfold dirs_free, in_the_way. intros Hd.
  apply not_true_is_false. intros (q & Hq & Hf)%existsb_exists.
  rewrite forallb_forall in Hd. specialize (Hd q Hq).
  unfold file_at in Hf. by destruct (s !! q) as [[]|].
Qed.

#[local] Opaque sh_curl_L_to sh_mkdir_p mkdirs.

(** The shell ignores the status of a [!] command: cell 11 never raises. *)
Lemma cell_11_any k w :
  cell_11 k w
  = (Ok k,
     advance (stage_dirs (store w))
       [Call Shell "mkdir" [AStr "-p"; AStr "/User/examples/stocks"]]
       [Access (ViaShell "mkdir") MakesDir "/User/examples/stocks"] [] w).
Proof.
  unfold cell_11. run.
  rewrite (sh_mkdir_p_status _ _ w resolve_sample_dir).
  fin.
Qed.

Lemma cell_14_offline k w :
  can_create (store w) csv_p = true →
  remote stocks_url = None →
  cell_14 k w
  = (Raise (CalledProcessError (Pos.to_nat (curl_failure stocks_url).1)),
     advance (stage_csv (curl_failure stocks_url).2 (store w))
       [Call Shell "curl" [AStr "-L"; AStr stocks_url; AStr ">";
                           AStr "/User/examples/stocks/stocks_example.csv"]]
       [Access (ViaShell "curl") Writes "/User/examples/stocks/stocks_example.csv";
        Access (ViaShell "curl") Fetches stocks_url] [] w).
Proof.
  intros Hc Hr. unfold cell_14, mbind, M_bind, bind.
  by erewrite sh_magic_fail
    by (by apply (sh_curl_L_to_offline _ _ _ _ resolve_sample_leaf)).
Qed.

Lemma cell_14_denied k w :
  can_create (store w) csv_p = false →
  cell_14 k w
  = (Raise (CalledProcessError (Pos.to_nat redirect_status)),
     advance (store w)
       [Call Shell "curl" [AStr "-L"; AStr stocks_url; AStr ">";
                           AStr "/User/examples/stocks/stocks_example.csv"]]
       [Access (ViaShell "curl") Writes "/User/examples/stocks/stocks_example.csv"] [] w).
Proof.
  intros Hc. unfold cell_14, mbind, M_bind, bind.
  by erewrite sh_magic_fail
    by (by apply (sh_curl_L_to_denied _ _ _ _ resolve_sample_leaf)).
Qed.

#[local] Transparent upsert.



#[local] Opaque upsert.




Lemma run_cells_nil k w : run_cells [] k w = (Ok k, w).
Proof. reflexivity. Qed.

Lemma run_before_mkdir s :
  ∃ w, run_all (take 3 file_access) s = (Ok k09, w) ∧ store w = s.
Proof.
  unfold run_all, boot. change (take 3 file_access)
    with [(5, cell_05); (7, cell_07); (9, cell_09)].
  erewrite run_cells_cons by apply cell_05_ok. tidy.
  erewrite run_cells_cons by apply cell_07_ok. tidy.
  erewrite run_cells_cons by apply cell_09_ok. tidy.
  rewrite run_cells_nil. by eexists.
Qed.

Lemma run_before_download s :
  ∃ w, run_all (take 4 file_access) s = (Ok k09, w)
       ∧ store w = stage_dirs s
       ∧ calls w = take 9 transcript.
Proof.
  unfold run_all, boot. change (take 4 file_access)
    with [(5, cell_05); (7, cell_07); (9, cell_09); (11, cell_11)].
  erewrite run_cells_cons by apply cell_05_ok. tidy.
  erewrite run_cells_cons by apply cell_07_ok. tidy.
  erewrite run_cells_cons by apply cell_09_ok. tidy.
  erewrite run_cells_cons by apply cell_11_any. tidy.
  rewrite run_cells_nil. eexists. split; [reflexivity|]. split; reflexivity.
Qed.

(** C9 (amended): cell 11 runs [mkdir -p] before cell 14 downloads, in
    every run: the first four cells always complete, and no curl command has run
    by then.  The command exits with status 0 exactly when no regular file lies on
    the path /User/examples/stocks, and then the directory of the download target
    exists when curl writes; after a complete run no regular file lies on the
    path, so this covers running the cells once more.  Where a regular file is in
    the way the command fails, and its status is ignored. *)
Theorem C9_mkdir_before_download s :
  file_access !! 3 = Some (11, cell_11)
  ∧ file_access !! 4 = Some (14, cell_14)
  ∧ (∃ w w', run_all (take 3 file_access) s = (Ok k09, w)
             ∧ (enter 11;; sh_mkdir_p "/User/examples/stocks") w
               = (Ok (if in_the_way s then 1 else 0), w'))
  ∧ (∃ w, run_all (take 4 file_access) s = (Ok k09, w)
          ∧ (11, mkdir_call) ∈ calls w
          ∧ (∀ ic, ic ∈ calls w → c_name ic.2 ≠ "curl")
          ∧ resolve_fs "/User/examples/stocks/stocks_example.csv" = Some csv_p
          ∧ (in_the_way s = false →
             ∃ o, store w !! parent csv_p = Some o ∧ is_dirlike o = true))
  ∧ (ready s = true → in_the_way (store (after_run s)) = false).
Proof.
  split; [unfold file_access; reflexivity|].
  split; [unfold file_access; reflexivity|]. split; [|split].
  - destruct (run_before_mkdir s) as (w & Hw & Hs).
    exists w. eexists. split; [exact Hw|].
    unfold mbind, M_bind, bind, enter.
    rewrite (sh_mkdir_p_status _ _ _ resolve_sample_dir).
    cbn [store]. rewrite Hs, mkdirs_sample. destruct (in_the_way s); reflexivity.
  - destruct (run_before_download s) as (w & Hw & Hs & Hc).
    exists w. split; [exact Hw|].
    split; [rewrite Hc; apply (list_elem_of_lookup_2 _ 8); reflexivity|].
    split.
    { intros ic Hi. rewrite Hc in Hi. clear Hw Hs Hc.
      unfold transcript in Hi. cbn [take] in Hi.
      repeat (apply elem_of_cons in Hi as [->|Hi]; [done|]).
      by apply elem_of_nil in Hi. }
    split; [apply resolve_sample_leaf|].
    intros Hclear. rewrite Hs. change (parent csv_p) with sample. unfold stage_dirs.
    apply mkdirs_made; [|apply sample_in_prefixes].
    rewrite mkdirs_sample, Hclear. reflexivity.
  - intros Hr. pose proof Hr as (Hd & _)%ready_parts.
    rewrite after_run_eq by done. cbn [store final_world].
    apply dirs_free_clear. apply final_dirs. exact Hd.
Qed.


(** ** Further properties of the cells *)

Lemma components_leaf (leaf : string) :
  Py.is_name leaf = true →
  Py.components ("/User/examples/stocks/" +:+ leaf) = ["User"; "examples"; "stocks"; leaf].
Proof.
  intros Hl. unfold Py.components. simpl.
  rewrite fields_name by by apply is_name_no_sep.
  rewrite filter_cons, decide_False by (let X := fresh in by intros X; apply X).
  rewrite !filter_cons, !decide_True; [done | by apply is_name_nonempty | done..].
Qed.

#[local] Transparent resolve_fs Py.posix_join.

Lemma resolve_fs_leaf (leaf : string) :
  Py.is_name leaf = true →
  resolve_fs (Py.posix_join "/User/examples/stocks" [leaf]) = Some (sample ++ [leaf]).
Proof.
  intros Hl.
  change (Py.posix_join "/User/examples/stocks" [leaf])
    with (Py.join_step "/User/examples/stocks" leaf).
  rewrite join_step_plain; [| done | done | by apply is_name_startswith].
  change ("/User/examples/stocks" +:+ "/" +:+ leaf) with ("/User/examples/stocks/" +:+ leaf).
  unfold resolve_fs.
  change (Py.startswith_sep ("/User/examples/stocks/" +:+ leaf)) with true.
  cbv iota. by rewrite components_leaf.
Qed.

#[local] Opaque resolve_fs Py.posix_join.

(** X1: the two sample-directory paths that cell 9 binds name the same
    directory of the data store: a file name joined to the file-system path and
    the same name joined to the URL path resolve to the same object, so what curl
    and pandas write or read under /User is what Spark reads by URL. *)
Theorem X1_paths_agree w :
  ∃ k w' fs url,
    cell_09 k07 w = (Ok k, w')
    ∧ sample_dir_path k = Some fs
    ∧ sample_dir_url_path k = Some url
    ∧ ∀ leaf, Py.is_name leaf = true →
        resolve_fs (Py.posix_join fs [leaf]) = Some (sample ++ [leaf])
        ∧ resolve_url (Py.posix_join url [leaf]) = Some (sample ++ [leaf]).
Proof.
  eexists _, _, _, _. split; [apply cell_09_ok|].
  split; [reflexivity|]. split; [reflexivity|].
  intros leaf Hl. split; [by apply resolve_fs_leaf|].
  rewrite join_sample_url by done. by apply resolve_leaf_url.
Qed.

(** X3: run in a fresh kernel, every cell that uses a module or a variable
    of an earlier cell raises NameError for the first such name, and leaves the
    data store as it was. *)
Theorem X3_fresh_kernel w :
  Forall (λ cx : cell * string,
            (cx.1 fresh_kernel w).1 = Raise (NameError cx.2)
            ∧ store (cx.1 fresh_kernel w).2 = store w)
         needs_kernel.
Proof. unfold needs_kernel. repeat constructor. Qed.

(** *** Re-running single cells after a complete run *)

#[local] Transparent frames_write.

(** X2: cell 25 rebinds the name df from the pandas DataFrame of cell 17 to
    a Spark DataFrame, so cell 20 is order dependent: run again in the kernel a
    complete run leaves behind, its Frames write raises and the data store stays
    as it was. *)
Theorem X2_df_rebound s :
  ready s = true →
  ∃ k, (run_all file_access s).1 = Ok k
       ∧ ∀ w, (cell_20 k w).1 = Raise (AttributeError "not a pandas DataFrame")
              ∧ store (cell_20 k w).2 = store w.
Proof.
  intros (Hdirs & Hcsv & (hdr & body & Hdoc & Hisin & Hvol) & Hft & Hst)%ready_parts.
  exists (k29 hdr body). split.
  - by rewrite (run_file_access_parts s hdr body).
  - intros w. split; reflexivity.
Qed.

#[local] Opaque frames_write.
#[local] Transparent do_load do_save.

(** X10: a complete run ends with the Spark session stopped, and in the
    kernel it leaves behind each of the conversion cells 26, 29 and 30 raises while
    the session is stopped, leaving the data store as it was. *)
Theorem X10_stopped_session s :
  ready s = true →
  spark_up (run_all file_access s).2 = false
  ∧ ∃ k, (run_all file_access s).1 = Ok k
         ∧ ∀ w, spark_up w = false →
             Forall (λ c : cell,
                       (c k w).1 = Raise (PlatformError "the Spark session is stopped")
                       ∧ store (c k w).2 = store w)
                    [cell_26; cell_29; cell_30].
Proof.
  intros (Hdirs & Hcsv & (hdr & body & Hdoc & Hisin & Hvol) & Hft & Hst)%ready_parts.
  rewrite (run_file_access_parts s hdr body) by done.
  split; [reflexivity|]. exists (k29 hdr body). split; [reflexivity|].
  intros w Hw.
  repeat apply Forall_cons_2; [| | | apply Forall_nil_2].
  - unfold cell_26. spark_ops. unfold do_save, need_spark. run. rewrite Hw. by run.
  - unfold cell_29. spark_ops. unfold do_load, need_spark. run. rewrite Hw. by run.
  - unfold cell_30. spark_ops. unfold do_save, need_spark. run.
    rewrite Hw. by run.
Qed.

#[local] Opaque do_load do_save.

(** *** Runs that stop at the download *)

(** X4: when the transfer fails, the curl cell raises CalledProcessError
    with the exit status of curl (6 for a host that cannot be resolved, 7 for a
    connection that is refused, and so on), so Run All stops at cell 14: the target
    holds what curl had written by then, and the calls made are those a complete
    run makes up to cell 14, none of them into pandas, Frames or Spark. *)
Theorem X4_download_fails s :
  remote stocks_url = None →
  dirs_free s sample = true → file_or_free s csv_p = true →
  (run_all file_access s).1
  = Raise (CalledProcessError (Pos.to_nat (curl_failure stocks_url).1))
  ∧ store (run_all file_access s).2
    = stage_csv (curl_failure stocks_url).2 (stage_dirs s)
  ∧ calls (run_all file_access s).2 = filter (λ ic, ic.1 ≤ 14) transcript.
Proof.
  intros Hr Hd Hf.
  assert (∃ w, run_all file_access s
               = (Raise (CalledProcessError (Pos.to_nat (curl_failure stocks_url).1)), w)
               ∧ store w = stage_csv (curl_failure stocks_url).2 (stage_dirs s)
               ∧ calls w = filter (λ ic, ic.1 ≤ 14) transcript) as (w & -> & ? & ?); [|done].
  eexists. split.
  - unfold run_all, file_access, boot.
    erewrite run_cells_cons by apply cell_05_ok. tidy.
    erewrite run_cells_cons by apply cell_07_ok. tidy.
    erewrite run_cells_cons by apply cell_09_ok. tidy.
    erewrite run_cells_cons by apply cell_11_any. tidy.
    erewrite run_cells_raise; [reflexivity|].
    apply cell_14_offline; [by apply can_create_csv | exact Hr].
  - split; reflexivity.
Qed.

(** X5: the status of the mkdir command of cell 11 is ignored, so when the
    directory cannot be made (a regular file is in the way) cell 11 still
    completes, and Run All stops at cell 14, whose redirect the shell cannot open:
    CalledProcessError with the exit status of the shell (1 in bash, 2 in dash),
    nothing fetched, nothing written at the target. *)
Theorem X5_mkdir_fails_silently s :
  in_the_way s = true →
  (∀ o, s !! sample = Some o → is_dirlike o = false) →
  (run_all file_access s).1 = Raise (CalledProcessError (Pos.to_nat redirect_status))
  ∧ cur (run_all file_access s).2 = 14
  ∧ store (run_all file_access s).2 = stage_dirs s
  ∧ stage_dirs s !! csv_p = s !! csv_p
  ∧ Forall (λ ia : nat * access, a_act ia.2 ≠ Fetches) (accesses (run_all file_access s).2).
Proof.
  intros Hm Hs.
  assert ((mkdirs s (prefixes sample)).2 = false) as Hf by by rewrite mkdirs_sample, Hm.
  assert (can_create (stage_dirs s) csv_p = false) as Hc.
  { unfold can_create. change (parent csv_p) with sample.
    unfold stage_dirs.
    change (prefixes sample)
      with ([["users"]; ["users"; user]; ["users"; user; "examples"]] ++ [sample]) in *.
    rewrite mkdirs_fail_last; [| | done].
    - destruct (s !! sample) as [o|] eqn:E; [|done]. by rewrite (Hs o).
    - rewrite !not_elem_of_cons. repeat split; try path_ne. apply not_elem_of_nil. }
  assert (∃ w, run_all file_access s
               = (Raise (CalledProcessError (Pos.to_nat redirect_status)), w)
               ∧ cur w = 14 ∧ store w = stage_dirs s
               ∧ Forall (λ ia : nat * access, a_act ia.2 ≠ Fetches) (accesses w))
    as (w & -> & ? & ? & ?).
  { eexists. split.
    - unfold run_all, file_access, boot.
      erewrite run_cells_cons by apply cell_05_ok. tidy.
      erewrite run_cells_cons by apply cell_07_ok. tidy.
      erewrite run_cells_cons by apply cell_09_ok. tidy.
      erewrite run_cells_cons by apply cell_11_any. tidy.
      erewrite run_cells_raise; [reflexivity|].
      by apply cell_14_denied.
    - repeat split; try reflexivity. simpl. by repeat constructor. }
  repeat split; try done.
  apply stage_dirs_other, csv_p_fresh.
Qed.

#[local] Transparent resolve_fs.

Lemma resolve_readme : resolve_fs "/User/examples/stocks.csv" = Some readme_p.
Proof. reflexivity. Qed.

#[local] Opaque resolve_fs.

Lemma readme_cell_ok k doc w :
  can_create (store w) readme_p = true →
  remote stocks_url = Some doc →
  readme_cell_52 k w
  = (Ok k,
     advance (<[readme_p := File doc]> (store w)) [readme_curl]
       [Access (ViaShell "curl") Writes "/User/examples/stocks.csv";
        Access (ViaShell "curl") Fetches stocks_url] [] w).
Proof.
  intros Hc Hr. unfold readme_cell_52. run.
  rewrite (sh_curl_L_to_ok _ _ _ doc _ resolve_readme) by done.
  fin.
Qed.

Lemma readme_cell_denied k w :
  can_create (store w) readme_p = false →
  readme_cell_52 k w
  = (Raise (CalledProcessError (Pos.to_nat redirect_status)),
     advance (store w) [readme_curl]
       [Access (ViaShell "curl") Writes "/User/examples/stocks.csv"] [] w).
Proof.
  intros Hc. unfold readme_cell_52, mbind, M_bind, bind.
  by erewrite sh_magic_fail
    by (by apply (sh_curl_L_to_denied _ _ _ _ resolve_readme)).
Qed.

Lemma final_prefix_dir doc s (q : path) :
  dirs_free s sample = true → q ∈ prefixes sample → final_store doc s !! q = Some Dir.
Proof.
  intros Hd Hq. unfold final_store. rewrite stage_out_other.
  2: { revert Hq.
       change (prefixes sample)
         with [["users"]; ["users"; user]; ["users"; user; "examples"]; sample].
       rewrite !elem_of_cons, elem_of_nil. intros [->|[->|[->|[->|[]]]]]; not_below. }
  unfold stage_spark, stage_frames, stage_csv.
  assert (q ≠ csv_p ∧ q ≠ frames_tab_p ∧ q ≠ spark_tab_p) as (? & ? & ?).
  { repeat split; intros ->.
    - by apply csv_p_fresh. - by apply frames_tab_p_fresh. - by apply spark_tab_p_fresh. }
  rewrite !lookup_insert_ne by done.
  by apply dirs_free_made.
Qed.

Lemma final_elsewhere doc s (q : path) :
  q ∉ prefixes sample → q ≠ csv_p → q ≠ frames_tab_p → q ≠ spark_tab_p →
  ¬ out_p `prefix_of` q →
  final_store doc s !! q = s !! q.
Proof.
  intros Hq H1 H2 H3 Ho. unfold final_store. rewrite stage_out_other by done.
  unfold stage_spark, stage_frames, stage_csv.
  rewrite !lookup_insert_ne by done.
  by apply stage_dirs_other.
Qed.

Lemma readme_p_kept doc s : final_store doc s !! readme_p = s !! readme_p.
Proof.
  apply final_elsewhere; [not_prefix | path_ne | path_ne | path_ne | not_below].
Qed.

(** X7: the README cell makes no directory, so where /User/examples does
    not exist the shell cannot open the target of its redirect: the cell raises
    CalledProcessError with the exit status of the shell (1 in bash, 2 in dash)
    before anything is fetched, and the data store stays as it was. *)
Theorem X7_readme_needs_directory s :
  s !! readme_dir = None →
  run_all readme s
  = (Raise (CalledProcessError (Pos.to_nat redirect_status)),
     World s false 52 [(52, readme_curl)]
       [(52, Access (ViaShell "curl") Writes "/User/examples/stocks.csv")] []).
Proof.
  intros Hs. unfold run_all, readme, boot.
  erewrite run_cells_raise; [reflexivity|].
  cbn [store spark_up cur calls accesses outputs].
  rewrite readme_cell_denied; [reflexivity|].
  unfold can_create. change (parent readme_p) with readme_dir.
  cbn [store]. by rewrite Hs.
Qed.

(** X6: run after a complete run of file-access.ipynb, the README cell
    succeeds, because that run has made /User/examples: it stores the downloaded
    document at users/<user>/examples/stocks.csv, a second copy of what the other
    notebook keeps at /User/examples/stocks/stocks_example.csv, and changes nothing
    else. *)
Theorem X6_readme_after_file_access s :
  ready s = true →
  file_or_free s readme_p = true →
  ∃ w, run_all readme (store (after_run s)) = (Ok fresh_kernel, w)
       ∧ store w = <[readme_p := File ingested]> (store (after_run s))
       ∧ store w !! csv_p = Some (File ingested).
Proof.
  intros Hr Hf.
  pose proof Hr as (Hd & _ & (hdr & body & Hdoc & _) & _)%ready_parts.
  rewrite after_run_eq by done.
  change (store (final_world ingested s)) with (final_store ingested s).
  eexists. split; [|split].
  - unfold run_all, readme, boot.
    erewrite run_cells_cons; [reflexivity|].
    cbn [store spark_up cur calls accesses outputs].
    apply (readme_cell_ok _ ingested).
    + unfold can_create. change (parent readme_p) with readme_dir. cbn [store].
      rewrite (final_prefix_dir _ _ readme_dir Hd).
      2: { change (prefixes sample)
             with [["users"]; ["users"; user]; readme_dir; sample].
           set_solver. }
      rewrite readme_p_kept. unfold file_or_free in Hf.
      by destruct (s !! readme_p) as [[]|].
    + unfold ingested. by rewrite Hdoc.
  - reflexivity.
  - cbn [store advance]. rewrite lookup_insert_ne by path_ne. apply final_csv.
Qed.

(** *** The listing of cell 33 *)



#[local] Transparent children.


#[local] Opaque children.





(** *** Documents without the columns the cells name *)

Lemma cell_17_no_key hdr body w :
  store w !! csv_p = Some (File (hdr :: body)) →
  Py.elem "ISIN" hdr = false →
  cell_17 k09 w
  = (Raise (KeyError "ISIN"),
     advance (store w)
       [Call PyOs "os.path.join" [AStr "/User/examples/stocks"; AStr "stocks_example.csv"];
        Call Pandas "read_csv" [AStr "/User/examples/stocks/stocks_example.csv"];
        Call Pandas "DataFrame.set_index" [AStr "ISIN"; AKw "inplace" (ARef "True")]]
       [Access ViaPandas Reads "/User/examples/stocks/stocks_example.csv"] [] w).
Proof.
  intros Hs Hi. unfold cell_17. run. rewrite join_3.
  rewrite (pd_read_csv_ok _ _ hdr body _ resolve_sample_leaf) by done.
  unfold pdf_set_index. run. rewrite Hi. run. fin.
Qed.

Lemma cell_29_no_column hdr body key items w :
  spark_up w = true →
  store w !! spark_tab_p = Some (Table key hdr items) →
  resolve_column "TradedVolume" hdr = None →
  cell_29 (k25 hdr body) w
  = (Raise (AnalysisException "cannot resolve the column"),
     advance (store w)
       [Call Spark "SparkSession.read" [];
        Call Spark "DataFrameReader.format" [AStr "io.iguaz.v3io.spark.sql.kv"];
        Call PyOs "os.path.join" [AStr sample_url; AStr "stocks_tab_spark"];
        Call Spark "DataFrameReader.load" [AStr (leaf_url "stocks_tab_spark")];
        Call Spark "DataFrame.where" [AStr "TradedVolume>20000"]]
       [Access (ViaSpark kv_format) Reads (leaf_url "stocks_tab_spark")] [] w).
Proof.
  intros Hup Hs Hv. unfold cell_29. spark_ops. run.
  rewrite (join_sample_url "stocks_tab_spark") by done.
  erewrite do_load_ok; [| done | by eapply scan_kv; [by apply resolve_leaf_url|]].
  run. rewrite parse_high_volume. run. rewrite Hv. fin.
Qed.

(** X11: cell 17 names the index column ISIN.  When the downloaded
    document has a header without that column, Run All stops at cell 17 with
    KeyError for ISIN: the CSV file has been stored, and neither table has been
    touched. *)
Theorem X11_no_key_column s hdr body :
  remote stocks_url = Some (hdr :: body) →
  Py.elem "ISIN" hdr = false →
  dirs_free s sample = true → file_or_free s csv_p = true →
  (run_all file_access s).1 = Raise (KeyError "ISIN")
  ∧ store (run_all file_access s).2 = stage_csv (hdr :: body) (stage_dirs s)
  ∧ store (run_all file_access s).2 !! frames_tab_p = s !! frames_tab_p
  ∧ store (run_all file_access s).2 !! spark_tab_p = s !! spark_tab_p.
Proof.
  intros Hdoc Hi Hd Hf.
  assert (∃ w, run_all file_access s = (Raise (KeyError "ISIN"), w)
               ∧ store w = stage_csv (hdr :: body) (stage_dirs s)) as (w & -> & Hw).
  { eexists. split.
    - unfold run_all, file_access, boot.
      erewrite run_cells_cons by apply cell_05_ok. tidy.
      erewrite run_cells_cons by apply cell_07_ok. tidy.
      erewrite run_cells_cons by apply cell_09_ok. tidy.
      erewrite run_cells_cons by apply cell_11_any. tidy.
      erewrite run_cells_cons
        by (apply cell_14_ok; [by apply can_create_csv | exact Hdoc]).
      tidy.
      erewrite run_cells_raise; [reflexivity|].
      apply (cell_17_no_key hdr body); [by apply lookup_insert_eq | exact Hi].
    - reflexivity. }
  cbn [fst snd]. rewrite Hw. unfold stage_csv.
  repeat split.
  - rewrite lookup_insert_ne by path_ne. apply stage_dirs_other, frames_tab_p_fresh.
  - rewrite lookup_insert_ne by path_ne. apply stage_dirs_other, spark_tab_p_fresh.
Qed.

Lemma out_p_fresh : out_p ∉ prefixes sample.
Proof. not_prefix. Qed.

(** X13: cell 29 filters on the column TradedVolume, which Spark looks up
    ignoring case.  When the downloaded document has the ISIN column but no column
    of that name in any spelling of upper and lower case, Run All stops at cell 29,
    where the filter cannot be resolved: nothing is written at the output path,
    and the Spark session is left running, since cell 41 is not reached. *)
Theorem X13_no_volume_column s hdr body :
  remote stocks_url = Some (hdr :: body) →
  Py.elem "ISIN" hdr = true → resolve_column "TradedVolume" hdr = None →
  dirs_free s sample = true → file_or_free s csv_p = true →
  table_or_free s frames_tab_p = true → table_or_free s spark_tab_p = true →
  (run_all file_access s).1 = Raise (AnalysisException "cannot resolve the column")
  ∧ cur (run_all file_access s).2 = 29
  ∧ store (run_all file_access s).2 !! out_p = s !! out_p
  ∧ spark_up (run_all file_access s).2 = true.
Proof.
  intros Hdoc Hisin Hvol Hdirs Hcsv Hft Hst.
  assert (∃ w, run_all file_access s
               = (Raise (AnalysisException "cannot resolve the column"), w)
               ∧ store w = stage_spark (hdr :: body)
                             (stage_frames (hdr :: body)
                                (stage_csv (hdr :: body) (stage_dirs s)))
               ∧ cur w = 29 ∧ spark_up w = true) as (w & -> & Hw & Hcur & Hup).
  { eexists. split.
    - unfold run_all, file_access, boot.
      erewrite run_cells_cons by apply cell_05_ok. tidy.
      erewrite run_cells_cons by apply cell_07_ok. tidy.
      erewrite run_cells_cons by apply cell_09_ok. tidy.
      erewrite run_cells_cons by (apply cell_11_ok; exact Hdirs). tidy.
      erewrite run_cells_cons
        by (apply cell_14_ok; [by apply can_create_csv | exact Hdoc]).
      tidy.
      erewrite run_cells_cons
        by (apply cell_17_ok; [by apply lookup_insert_eq | exact Hisin]).
      tidy.
      erewrite run_cells_cons.
      2: { apply cell_20_ok. simpl. unfold table_or_free, stage_csv.
           rewrite lookup_insert_ne by path_ne.
           rewrite stage_dirs_other by apply frames_tab_p_fresh. exact Hft. }
      tidy.
      erewrite run_cells_cons.
      2: { apply cell_25_ok. simpl. unfold stage_frames, stage_csv.
           rewrite lookup_insert_ne by path_ne. by apply lookup_insert_eq. }
      tidy.
      erewrite run_cells_cons.
      2: { apply cell_26_ok; simpl; [done | | exact Hisin |].
           - unfold stage_frames, stage_csv.
             rewrite lookup_insert_ne by path_ne. by apply lookup_insert_eq.
           - unfold table_or_free, stage_frames, stage_csv.
             rewrite !lookup_insert_ne by path_ne.
             rewrite stage_dirs_other by apply spark_tab_p_fresh. exact Hst. }
      tidy.
      erewrite run_cells_raise; [reflexivity|].
      eapply cell_29_no_column; simpl; [done | | exact Hvol].
      unfold stage_spark. by apply lookup_insert_eq.
    - repeat split; reflexivity. }
  cbn [fst snd]. rewrite Hw. repeat split; [exact Hcur | | exact Hup].
  unfold stage_spark, stage_frames, stage_csv.
  rewrite !lookup_insert_ne by path_ne. apply stage_dirs_other, out_p_fresh.
Qed.

#[local] Transparent sh_ls_l.

(** X12: the listing cell is harmless wherever it is run: the status of a
    [!] command is ignored, so cell 33 completes whether or not the directory
    exists, and it leaves the data store as it was. *)
Theorem X12_listing_harmless k w :
  (cell_33 k w).1 = Ok k ∧ store (cell_33 k w).2 = store w.
Proof.
  unfold cell_33, sh_ls_l. run. rewrite resolve_sample_dir_slash. simpl.
  destruct (store w !! sample) as [[| |]|]; by run.
Qed.

#[local] Opaque sh_ls_l.

End Theory.

(** ** The claims at the sample environment *)

#[local] Transparent getenv resolve_fs resolve_url Py.posix_join mkdirs scan eval_plan
  upsert write_parts remove_tree children can_create parse_cond resolve_column
  sh_mkdir_p sh_curl_L_to sh_ls_l pd_read_csv frames_write do_load df_show do_save.

#[local] Existing Instance sample_env.

(** The store a first complete run leaves, on which the README cell runs. *)
Definition sample_after : gmap path obj := store (after_run sample_store).

(** C1, as stated, fails on the sample run: the conversion cells make calls
    that are not configuration (the where and the coalesce). *)
Lemma C1_counterexample : config_only (after_run sample_store) = false.
Proof. vm_compute. reflexivity. Qed.

Lemma C1_witness :
  Py.is_name user = true ∧ ready sample_store = true
  ∧ (∀ c, c ∈ conversion_calls (after_run sample_store) →
          is_config c = true ∨ c = where_call ∨ c = coalesce_call)
  ∧ where_call ∈ conversion_calls (after_run sample_store)
  ∧ coalesce_call ∈ conversion_calls (after_run sample_store).
Proof.
  split; [reflexivity|]. split; [vm_compute; reflexivity|].
  apply (@C1_conversion_calls sample_env eq_refl sample_store). vm_compute. reflexivity.
Defined.

(** C2, as stated, fails on the sample run: what the write leaves at the
    target path is a directory, not a single file. *)
Lemma C2_counterexample : single_file_at (after_run sample_store) out_p = false.
Proof. vm_compute. reflexivity. Qed.

Lemma C2_witness :
  Py.is_name user = true ∧ ready sample_store = true
  ∧ store (after_run sample_store) !! out_p = Some Dir
  ∧ store (after_run sample_store) !! success_p = Some (File [])
  ∧ (∃ doc, store (after_run sample_store) !! part_p = Some (File doc))
  ∧ part_p ≠ success_p
  ∧ ∀ (q : path) o, store (after_run sample_store) !! q = Some o →
                     out_p `prefix_of` q → q = out_p ∨ q = success_p ∨ q = part_p.
Proof.
  split; [reflexivity|]. split; [vm_compute; reflexivity|].
  apply (@C2_one_part_file sample_env eq_refl sample_store). vm_compute. reflexivity.
Defined.



(** C4, as stated, fails on the sample run: cell 9 calls os.path.join and
    os.getenv, cell 5 only imports. *)
Lemma C4_counterexample : sdk_only (after_run sample_store) = false.
Proof. vm_compute. reflexivity. Qed.

Lemma C4_witness :
  Py.is_name user = true ∧ ready sample_store = true
  ∧ ∀ ic, ic ∈ calls (after_run sample_store) ++ calls (after_readme sample_after) →
          used_sdk_or_shell ic.2 = true ∨ python_glue ic.2 = true.
Proof.
  split; [reflexivity|]. split; [vm_compute; reflexivity|].
  apply (@C4_cell_calls sample_env eq_refl sample_store sample_after).
  vm_compute. reflexivity.
Defined.

(** C5, as stated, fails on the sample runs of both notebooks: no access
    concerns a Parquet or Hive table. *)
Lemma C5_counterexample :
  some_access ParquetHive
    (accesses (after_run sample_store) ++ accesses (after_readme sample_after)) = false.
Proof. vm_compute. reflexivity. Qed.

Lemma C5_witness :
  Py.is_name user = true ∧ ready sample_store = true
  ∧ some_access ObjectStore (accesses (after_run sample_store)) = true
  ∧ some_access FileSystem (accesses (after_run sample_store)) = true
  ∧ some_access NoSQLTable (accesses (after_run sample_store)) = true
  ∧ some_access CsvFile (accesses (after_run sample_store)) = true
  ∧ ∀ ia, ia ∈ accesses (after_run sample_store) ++ accesses (after_readme sample_after) →
          concerns ParquetHive ia.2 = false.
Proof.
  split; [reflexivity|]. split; [vm_compute; reflexivity|].
  apply (@C5_stores sample_env eq_refl sample_store sample_after). vm_compute. reflexivity.
Defined.







(** C9, as stated, fails on a store in which a regular file lies on the
    path: mkdir -p exits with status 1, and the directory of the download target
    does not exist when curl writes. *)
Lemma C9_counterexample :
  in_the_way blocked_store = true
  ∧ ∃ w w', run_all (take 3 file_access) blocked_store = (Ok k09, w)
      ∧ (enter 11;; sh_mkdir_p "/User/examples/stocks") w = (Ok 1, w')
      ∧ store (run_all (take 4 file_access) blocked_store).2 !! parent csv_p = None.
Proof.
  split; [vm_compute; reflexivity|].
  eexists _, _. split; [vm_compute; reflexivity|].
  split; vm_compute; reflexivity.
Qed.

Lemma C9_witness :
  Py.is_name user = true
  ∧ in_the_way sample_store = false
  ∧ (∃ w w', run_all (take 3 file_access) sample_store = (Ok k09, w)
             ∧ (enter 11;; sh_mkdir_p "/User/examples/stocks") w = (Ok 0, w'))
  ∧ (∃ w, run_all (take 4 file_access) sample_store = (Ok k09, w)
          ∧ ∃ o, store w !! parent csv_p = Some o ∧ is_dirlike o = true).
Proof.
  split; [reflexivity|]. split; [vm_compute; reflexivity|].
  destruct (@C9_mkdir_before_download sample_env eq_refl sample_store)
    as (_ & _ & Hm & (w & Hw & _ & _ & _ & Hd) & _).
  split; [exact Hm|].
  exists w. split; [exact Hw|]. apply Hd. vm_compute. reflexivity.
Defined.



(** ** Further properties at the sample environment *)

Lemma X1_witness :
  Py.is_name user = true
  ∧ ∃ k w' fs url,
      cell_09 k07 (boot sample_store) = (Ok k, w')
      ∧ sample_dir_path k = Some fs
      ∧ sample_dir_url_path k = Some url
      ∧ ∀ leaf, Py.is_name leaf = true →
          resolve_fs (Py.posix_join fs [leaf]) = Some (sample ++ [leaf])
          ∧ resolve_url (Py.posix_join url [leaf]) = Some (sample ++ [leaf]).
Proof.
  split; [reflexivity|].
  apply (@X1_paths_agree sample_env eq_refl (boot sample_store)).
Defined.

Lemma X2_witness :
  Py.is_name user = true ∧ ready sample_store = true
  ∧ ∃ k, (run_all file_access sample_store).1 = Ok k
         ∧ ∀ w, (cell_20 k w).1 = Raise (AttributeError "not a pandas DataFrame")
                ∧ store (cell_20 k w).2 = store w.
Proof.
  split; [reflexivity|]. split; [vm_compute; reflexivity|].
  apply (@X2_df_rebound sample_env eq_refl sample_store). vm_compute. reflexivity.
Defined.

Lemma X6_witness :
  Py.is_name user = true ∧ ready sample_store = true
  ∧ file_or_free sample_store readme_p = true
  ∧ ∃ w, run_all readme (store (after_run sample_store)) = (Ok fresh_kernel, w)
         ∧ store w = <[readme_p := File ingested]> (store (after_run sample_store))
         ∧ store w !! csv_p = Some (File ingested).
Proof.
  split; [reflexivity|]. split; [vm_compute; reflexivity|].
  split; [vm_compute; reflexivity|].
  apply (@X6_readme_after_file_access sample_env eq_refl sample_store);
    vm_compute; reflexivity.
Defined.

Lemma X7_witness :
  sample_store !! readme_dir = None
  ∧ run_all readme sample_store
    = (Raise (CalledProcessError (Pos.to_nat redirect_status)),
       World sample_store false 52 [(52, readme_curl)]
         [(52, Access (ViaShell "curl") Writes "/User/examples/stocks.csv")] []).
Proof.
  split; [vm_compute; reflexivity|].
  apply (@X7_readme_needs_directory sample_env sample_store).
  vm_compute. reflexivity.
Defined.


Lemma X10_witness :
  Py.is_name user = true ∧ ready sample_store = true
  ∧ spark_up (run_all file_access sample_store).2 = false
  ∧ ∃ k, (run_all file_access sample_store).1 = Ok k
         ∧ ∀ w, spark_up w = false →
             Forall (λ c : cell,
                       (c k w).1 = Raise (PlatformError "the Spark session is stopped")
                       ∧ store (c k w).2 = store w)
                    [cell_26; cell_29; cell_30].
Proof.
  split; [reflexivity|]. split; [vm_compute; reflexivity|].
  apply (@X10_stopped_session sample_env eq_refl sample_store). vm_compute. reflexivity.
Defined.

Lemma X5_witness :
  Py.is_name user = true
  ∧ in_the_way blocked_store = true
  ∧ (∀ o, blocked_store !! sample = Some o → is_dirlike o = false)
  ∧ (run_all file_access blocked_store).1
    = Raise (CalledProcessError (Pos.to_nat redirect_status))
  ∧ cur (run_all file_access blocked_store).2 = 14
  ∧ store (run_all file_access blocked_store).2 = stage_dirs blocked_store
  ∧ stage_dirs blocked_store !! csv_p = blocked_store !! csv_p
  ∧ Forall (λ ia : nat * access, a_act ia.2 ≠ Fetches)
           (accesses (run_all file_access blocked_store).2).
Proof.
  split; [reflexivity|]. split; [vm_compute; reflexivity|].
  split; [intros o Ho; vm_compute in Ho; discriminate|].
  apply (@X5_mkdir_fails_silently sample_env eq_refl blocked_store);
    [vm_compute; reflexivity | intros o Ho; vm_compute in Ho; discriminate].
Defined.

(** ** Runs that stop early *)

#[local] Existing Instance offline_env | 0.

Lemma X4_witness :
  Py.is_name user = true ∧ remote stocks_url = None
  ∧ dirs_free sample_store sample = true ∧ file_or_free sample_store csv_p = true
  ∧ (run_all file_access sample_store).1
    = Raise (CalledProcessError (Pos.to_nat (curl_failure stocks_url).1))
  ∧ store (run_all file_access sample_store).2
    = stage_csv (curl_failure stocks_url).2 (stage_dirs sample_store)
  ∧ calls (run_all file_access sample_store).2 = filter (λ ic, ic.1 ≤ 14) transcript.
Proof.
  split; [reflexivity|]. split; [reflexivity|].
  split; [vm_compute; reflexivity|]. split; [vm_compute; reflexivity|].
  apply (@X4_download_fails offline_env eq_refl sample_store);
    [reflexivity | vm_compute; reflexivity | vm_compute; reflexivity].
Defined.

#[local] Existing Instance no_isin_env | 0.

Lemma X11_witness :
  Py.is_name user = true
  ∧ remote stocks_url = Some [ ["Mnemonic"; "TradedVolume"]; ["BBZA"; "25000"] ]
  ∧ Py.elem "ISIN" ["Mnemonic"; "TradedVolume"] = false
  ∧ dirs_free sample_store sample = true ∧ file_or_free sample_store csv_p = true
  ∧ (run_all file_access sample_store).1 = Raise (KeyError "ISIN")
  ∧ store (run_all file_access sample_store).2
    = stage_csv [ ["Mnemonic"; "TradedVolume"]; ["BBZA"; "25000"] ]
        (stage_dirs sample_store)
  ∧ store (run_all file_access sample_store).2 !! frames_tab_p
    = sample_store !! frames_tab_p
  ∧ store (run_all file_access sample_store).2 !! spark_tab_p
    = sample_store !! spark_tab_p.
Proof.
  split; [reflexivity|]. split; [reflexivity|]. split; [reflexivity|].
  split; [vm_compute; reflexivity|]. split; [vm_compute; reflexivity|].
  apply (@X11_no_key_column no_isin_env eq_refl sample_store);
    [reflexivity | reflexivity | vm_compute; reflexivity | vm_compute; reflexivity].
Defined.

#[local] Existing Instance no_volume_env | 0.

Lemma X13_witness :
  Py.is_name user = true
  ∧ remote stocks_url = Some [ ["ISIN"; "Mnemonic"]; ["CH0038389992"; "BBZA"] ]
  ∧ Py.elem "ISIN" ["ISIN"; "Mnemonic"] = true
  ∧ resolve_column "TradedVolume" ["ISIN"; "Mnemonic"] = None
  ∧ dirs_free sample_store sample = true ∧ file_or_free sample_store csv_p = true
  ∧ table_or_free sample_store frames_tab_p = true
  ∧ table_or_free sample_store spark_tab_p = true
  ∧ (run_all file_access sample_store).1
    = Raise (AnalysisException "cannot resolve the column")
  ∧ cur (run_all file_access sample_store).2 = 29
  ∧ store (run_all file_access sample_store).2 !! out_p = sample_store !! out_p
  ∧ spark_up (run_all file_access sample_store).2 = true.
Proof.
  split; [reflexivity|]. split; [reflexivity|]. split; [reflexivity|].
  split; [reflexivity|].
  split; [vm_compute; reflexivity|]. split; [vm_compute; reflexivity|].
  split; [vm_compute; reflexivity|]. split; [vm_compute; reflexivity|].
  apply (@X13_no_volume_column no_volume_env eq_refl sample_store
           ["ISIN"; "Mnemonic"] [["CH0038389992"; "BBZA"]]);
    [reflexivity | reflexivity | reflexivity | vm_compute; reflexivity
     | vm_compute; reflexivity | vm_compute; reflexivity | vm_compute; reflexivity].
Defined.

